(** * Concepts of the social-app backend: Feeding, Favoriting, Featuring,
      Communiting and the error enrichment of [responses.ts]

    A shallow embedding of the concept classes under [server/concepts] and of
    the error resolvers registered in [server/responses.ts].  Every concept
    owns one document collection; its actions are asynchronous methods that
    read and write that collection and reject with a typed error.

    The embedding keeps three things of the TypeScript source apart that
    decide most properties below:
    - an [await]ed call, whose rejection aborts the caller,
    - a call whose promise is dropped (no [await]): the caller goes on
      whatever the outcome, and a rejection stays unhandled,
    - the literal filter objects handed to the collection, field names
      included. *)

From Stdlib Require Import String Ascii List Bool NArith ZArith Lia.
From Stdlib Require Import Floats.
From Stdlib Require Import Permutation.
Import ListNotations.
Open Scope string_scope.

(* ================================================================== *)
(** * Identifiers, values and errors                                   *)
(* ================================================================== *)

(** A MongoDB [ObjectId], identified with its hexadecimal string: that is
    what [new ObjectId(id)] in [routes.ts] is built from and what
    [toString()] gives back. *)
Record ObjectId : Type := OID { toString : string }.

Definition ObjectId_eq_dec (a b : ObjectId) : {a = b} + {a <> b}.
Proof. decide equality. apply string_dec. Defined.

(** [a.equals(b)] *)
Definition equals (a b : ObjectId) : bool :=
  String.eqb (toString a) (toString b).

(** An object is truthy in JavaScript, whatever it holds. *)
Definition truthy (_ : ObjectId) : bool := true.

(** The values that occur as fields of documents, filters and patches. *)
Inductive value : Type :=
| VId (o : ObjectId)
| VStr (s : string)
| VIds (l : list ObjectId)
| VUndefined.

Fixpoint ids_eqb (l1 l2 : list ObjectId) : bool :=
  match l1, l2 with
  | [], [] => true
  | a :: l1', b :: l2' => equals a b && ids_eqb l1' l2'
  | _, _ => false
  end.

Definition value_eqb (v1 v2 : value) : bool :=
  match v1, v2 with
  | VId a, VId b => equals a b
  | VStr a, VStr b => String.eqb a b
  | VIds a, VIds b => ids_eqb a b
  | VUndefined, VUndefined => true
  | _, _ => false
  end.

(** An object literal such as [{ feed: feed, item: item }]. *)
Definition object : Type := list (string * value).

(** The two root kinds of [./errors]. *)
Inductive root : Type := NotFound | NotAllowed.

(** The error classes the concepts throw.  The first two are the roots
    constructed directly ([new NotFoundError(msg)]); the others are the
    subclasses declared at the end of each concept file, with the raw ids
    they carry. *)
Inductive error : Type :=
| NotFoundError (msg : string)
| NotAllowedError (msg : string)
| FeedItemNoMatchError (item _id : ObjectId)
| FeedItemExistsError (item _id : ObjectId)
| FavoriteItemNoMatchError (user item : ObjectId)
| FavoriteItemExistsError (user item : ObjectId)
| CommunityAuthorNoMatchError (author _id : ObjectId)
| CommunityUserNoMatchError (member _id : ObjectId)
| CommunityMemberExistsError (member _id : ObjectId)
| CommunityItemNoMatchError (item _id : ObjectId)
| CommunityItemExistsError (item _id : ObjectId).

(** [class X extends NotFoundError] / [extends NotAllowedError] *)
Definition root_of (e : error) : root :=
  match e with
  | NotFoundError _ => NotFound
  | NotAllowedError _ => NotAllowed
  | FeedItemNoMatchError _ _ => NotFound
  | FeedItemExistsError _ _ => NotAllowed
  | FavoriteItemNoMatchError _ _ => NotFound
  | FavoriteItemExistsError _ _ => NotAllowed
  | CommunityAuthorNoMatchError _ _ => NotAllowed
  | CommunityUserNoMatchError _ _ => NotFound
  | CommunityMemberExistsError _ _ => NotAllowed
  | CommunityItemNoMatchError _ _ => NotFound
  | CommunityItemExistsError _ _ => NotAllowed
  end.

(** The template handed to [super(...)] by each constructor. *)
Definition format (e : error) : string :=
  match e with
  | NotFoundError msg => msg
  | NotAllowedError msg => msg
  | FeedItemNoMatchError _ _ => "{0} is not an item of feed {1}"
  | FeedItemExistsError _ _ => "{0} is already an item of feed {1}"
  | FavoriteItemNoMatchError _ _ => "{0} hasnot favorited item {1}"
  | FavoriteItemExistsError _ _ => "{0} has already favorited item {1}"
  | CommunityAuthorNoMatchError _ _ => "{0} is not the author of community {1}"
  | CommunityUserNoMatchError _ _ => "{0} is not a member of community {1}"
  | CommunityMemberExistsError _ _ => "{0} is already a member of community {1}"
  | CommunityItemNoMatchError _ _ => "{0} is not an item of community {1}"
  | CommunityItemExistsError _ _ => "{0} is already an item of community {1}"
  end.

(** The raw arguments handed to [super(...)] after the template. *)
Definition raw_args (e : error) : list ObjectId :=
  match e with
  | NotFoundError _ | NotAllowedError _ => []
  | FeedItemNoMatchError a b | FeedItemExistsError a b
  | FavoriteItemNoMatchError a b | FavoriteItemExistsError a b
  | CommunityAuthorNoMatchError a b | CommunityUserNoMatchError a b
  | CommunityMemberExistsError a b | CommunityItemNoMatchError a b
  | CommunityItemExistsError a b => [a; b]
  end.

(* ================================================================== *)
(** * Asynchronous computations over one collection                    *)
(* ================================================================== *)

(** Documents of a collection: the [BaseDoc] identity and the fields of
    the schema.  The creation and update dates of [BaseDoc] are kept by
    the collection and read by no concept; they are left out. *)
Record Doc (D : Type) : Type := mkDoc { _id : ObjectId; body : D }.
Arguments mkDoc {D} _ _.
Arguments _id {D} _.
Arguments body {D} _.

(** What a schema interface ([FeedDoc], [FavoriteDoc], ...) gives the
    collection: reading a field by its name, and setting one. A name the
    interface does not declare reads as [None]. *)
Class Schema (D : Type) : Type := {
  field : D -> string -> option value;
  assign : D -> string -> value -> D
}.

(** The world a concept runs in: the documents of its collection in
    insertion order, the number of identifiers the driver has generated,
    and the rejections of promises that nobody awaited. *)
Record World (D : Type) : Type := mkWorld {
  docs : list (Doc D);
  issued : N;
  unhandled : list error
}.
Arguments mkWorld {D} _ _ _.
Arguments docs {D} _.
Arguments issued {D} _.
Arguments unhandled {D} _.

Definition empty (D : Type) : World D := mkWorld [] 0 [].

(** An [async] method: it ends with a value or a rejection, in a new
    world. *)
Definition Async (D A : Type) : Type := World D -> (error + A) * World D.

Definition ret {D A} (a : A) : Async D A := fun w => (inr a, w).

Definition throw {D A} (e : error) : Async D A := fun w => (inl e, w).

(** [const x = await m; k] *)
Definition bind {D A B} (m : Async D A) (k : A -> Async D B) : Async D B :=
  fun w =>
    match m w with
    | (inl e, w') => (inl e, w')
    | (inr a, w') => k a w'
    end.

(** [m;] for an [async] method [m] called without [await]: the promise is
    dropped.  The caller continues in both cases; a rejection is recorded
    as unhandled.  The callee is run at the call: the calls dropped in this
    program only read, and their reads are issued before the caller's next
    storage call. *)
Definition detach {D A} (m : Async D A) : Async D unit :=
  fun w =>
    match m w with
    | (inl e, w') =>
        (inr tt, mkWorld (docs w') (issued w') (unhandled w' ++ [e])%list)
    | (inr _, w') => (inr tt, w')
    end.

(** What a dropped assertion leaves behind: its rejection when the
    condition it guards against holds, nothing otherwise. *)
Definition rejection_if (b : bool) (e : error) : list error :=
  if b then [e] else [].

Declare Scope async_scope.
Delimit Scope async_scope with async.
Notation "'let*' x ':=' 'await' m 'in' k" := (bind m (fun x => k))
  (at level 10, x name, m at level 100, k at level 200)
  : async_scope.
Notation "'await' m ';;' k" := (bind m (fun _ => k))
  (at level 10, m at level 100, k at level 200)
  : async_scope.
Notation "'dropped' m ';;' k" := (bind (detach m) (fun _ => k))
  (at level 10, m at level 100, k at level 200)
  : async_scope.
Open Scope async_scope.

(* ================================================================== *)
(** * The generic collection                                           *)
(* ================================================================== *)

Module DocCollection.
Section Collection.
Context {D : Type} `{Schema D}.

(** Modelled from the spec: a document's field by name, [_id] from the
    base shape and the others from the schema. *)
Definition doc_field (d : Doc D) (k : string) : option value :=
  if String.eqb k "_id" then Some (VId (_id d)) else field (body d) k.

(** Modelled from the spec: [framework/doc.ts] is not among the sources.
    A filter is an object of field values; a document passes when each
    named field is present on it with an equal value.  A field the
    document does not have equals no identifier and no string (the
    equality filter of the MongoDB driver the collection wraps). *)
Definition matches (filter : object) (d : Doc D) : bool :=
  forallb
    (fun kv =>
       match doc_field d (fst kv) with
       | Some v => value_eqb v (snd kv)
       | None => false
       end)
    filter.

Definition hex_digit (n : N) : ascii :=
  match n with
  | 0 => "0" | 1 => "1" | 2 => "2" | 3 => "3" | 4 => "4" | 5 => "5"
  | 6 => "6" | 7 => "7" | 8 => "8" | 9 => "9" | 10 => "a" | 11 => "b"
  | 12 => "c" | 13 => "d" | 14 => "e" | _ => "f"
  end%N%char.

Fixpoint hex (digits : nat) (n : N) : string :=
  match digits with
  | O => ""
  | S d => hex d (n / 16) ++ String (hex_digit (n mod 16)) ""
  end.

(** Modelled from the spec: documents have "an opaque identity".  The
    identifier generated for the [n]-th insertion is [n] in 24
    hexadecimal digits; no property below depends on the choice. *)
Definition generated (n : N) : ObjectId := OID (hex 24 n).

(** Modelled from the spec: [createOne(fields) -> id].  The document is
    stored after the existing ones under a generated identity. *)
Definition createOne (fields : D) : Async D ObjectId :=
  fun w =>
    let id := generated (issued w) in
    (inr id,
     mkWorld (docs w ++ [mkDoc id fields])%list (issued w + 1) (unhandled w)).

(** Modelled from the spec: [readOne(filter) -> document-or-absent];
    it never throws for "not found". *)
Definition readOne (filter : object) : Async D (option (Doc D)) :=
  fun w => (inr (find (matches filter) (docs w)), w).

(** Modelled from the spec: [readMany(filter) -> sequence of documents],
    the empty sequence when none passes. *)
Definition readMany (filter : object) : Async D (list (Doc D)) :=
  fun w => (inr (List.filter (matches filter) (docs w)), w).

(** Modelled from the spec: the fields of [update] set on [d], the
    identity kept. *)
Definition patch (update : object) (d : Doc D) : Doc D :=
  mkDoc (_id d)
        (fold_left (fun b kv => assign b (fst kv) (snd kv)) update (body d)).

Fixpoint update_first (filter update : object) (l : list (Doc D)) : list (Doc D) :=
  match l with
  | [] => []
  | d :: l' =>
      if matches filter d then patch update d :: l'
      else d :: update_first filter update l'
  end.

(** Modelled from the spec: [partialUpdateOne(filter, patch) -> ok]
    replaces only the given fields, on the first document that passes. *)
Definition partialUpdateOne (filter update : object) : Async D unit :=
  fun w =>
    (inr tt, mkWorld (update_first filter update (docs w)) (issued w) (unhandled w)).

Fixpoint remove_first (filter : object) (l : list (Doc D)) : list (Doc D) :=
  match l with
  | [] => []
  | d :: l' => if matches filter d then l' else d :: remove_first filter l'
  end.

(** Modelled from the spec: [deleteOne(filter) -> ok] removes the first
    document that passes, and nothing when none does. *)
Definition deleteOne (filter : object) : Async D unit :=
  fun w =>
    (inr tt, mkWorld (remove_first filter (docs w)) (issued w) (unhandled w)).

End Collection.
End DocCollection.
Import DocCollection.

(** [x?.f] on a document-or-absent, as the value of a patch field: an
    array, or [undefined] when [x] is absent. *)
Definition array_or_undefined (o : option (list ObjectId)) : value :=
  match o with
  | Some l => VIds l
  | None => VUndefined
  end.

(** [favs === null] on the array that [readMany] gives: never true. *)
Definition is_null {A} (_ : list A) : bool := false.

(* ================================================================== *)
(** * concept: Feeding [Item]   ([server/concepts/feeding.ts])          *)
(* ================================================================== *)

Module Feeding.

Record FeedDoc : Type := mkFeedDoc { feed : ObjectId; item : ObjectId }.

#[global] Instance FeedDoc_schema : Schema FeedDoc := {
  field d k :=
    if String.eqb k "feed" then Some (VId (feed d))
    else if String.eqb k "item" then Some (VId (item d))
    else None;
  assign d k v :=
    match v with
    | VId o =>
        if String.eqb k "feed" then mkFeedDoc o (item d)
        else if String.eqb k "item" then mkFeedDoc (feed d) o
        else d
    | _ => d
    end
}.

Definition assertItemInFeed (_id itemId : ObjectId) : Async FeedDoc unit :=
  let* item := await readOne [("community", VId _id); ("item", VId itemId)] in
  match item with
  | None => throw (FeedItemNoMatchError itemId _id)
  | Some _ => ret tt
  end.

Definition assertItemNotInFeed (_id itemId : ObjectId) : Async FeedDoc unit :=
  let* item := await readOne [("community", VId _id); ("item", VId itemId)] in
  match item with
  | Some _ => throw (FeedItemExistsError itemId _id)
  | None => ret tt
  end.

Definition addItem (item feed : ObjectId) : Async FeedDoc string :=
  await assertItemNotInFeed item feed ;;
  await createOne (mkFeedDoc feed item) ;;
  ret "An item has been added to a feed!".

Definition deleteItem (item feed : ObjectId) : Async FeedDoc string :=
  await assertItemInFeed item feed ;;
  await deleteOne [("feed", VId feed); ("item", VId item)] ;;
  ret "An item has been deleted from the community!".

Definition getItems (feed : ObjectId) : Async FeedDoc (list (Doc FeedDoc)) :=
  readMany [("feed", VId feed)].

(** The pair (feed, item) is stored. *)
Definition present (feed item : ObjectId) (w : World FeedDoc) : bool :=
  existsb (matches [("feed", VId feed); ("item", VId item)]) (docs w).

End Feeding.

(* ================================================================== *)
(** * concept: Favoriting [User, Item]  ([server/concepts/favoriting.ts]) *)
(* ================================================================== *)

Module Favoriting.

Record FavoriteDoc : Type := mkFavoriteDoc { user : ObjectId; item : ObjectId }.

#[global] Instance FavoriteDoc_schema : Schema FavoriteDoc := {
  field d k :=
    if String.eqb k "user" then Some (VId (user d))
    else if String.eqb k "item" then Some (VId (item d))
    else None;
  assign d k v :=
    match v with
    | VId o =>
        if String.eqb k "user" then mkFavoriteDoc o (item d)
        else if String.eqb k "item" then mkFavoriteDoc (user d) o
        else d
    | _ => d
    end
}.

Definition assertItemIsFavorite (user item : ObjectId) : Async FavoriteDoc unit :=
  let* favorite := await readOne [("user", VId user); ("item", VId item)] in
  match favorite with
  | None => throw (FavoriteItemNoMatchError user item)
  | Some _ => ret tt
  end.

Definition assertItemIsNotFavorite (user item : ObjectId) : Async FavoriteDoc unit :=
  let* favorite := await readOne [("user", VId user); ("item", VId item)] in
  match favorite with
  | Some _ => throw (FavoriteItemExistsError user item)
  | None => ret tt
  end.

Definition favorite (user item : ObjectId)
  : Async FavoriteDoc (string * option (Doc FavoriteDoc)) :=
  dropped assertItemIsNotFavorite user item ;;
  let* _id := await createOne (mkFavoriteDoc user item) in
  let* favorite := await readOne [("_id", VId _id)] in
  ret ("A user has favorited an item!", favorite).

Definition unfavorite (user item : ObjectId) : Async FavoriteDoc string :=
  dropped assertItemIsFavorite user item ;;
  await deleteOne [("user", VId user); ("item", VId item)] ;;
  ret "A user has unfavorited an item!".

Definition getNumFavorites (item : ObjectId) : Async FavoriteDoc nat :=
  let* favs := await readMany [("item", VId item)] in
  if is_null favs then ret 0 else ret (length favs).

Definition getFavorites (user : ObjectId) : Async FavoriteDoc (list (Doc FavoriteDoc)) :=
  let* favs := await readMany [("user", VId user)] in
  ret favs.

(** The pair (user, item) is stored. *)
Definition present (user item : ObjectId) (w : World FavoriteDoc) : bool :=
  existsb (matches [("user", VId user); ("item", VId item)]) (docs w).

End Favoriting.

(* ================================================================== *)
(** * concept: Featuring [Item, Number]   ([unnamed/part_001])          *)
(* ================================================================== *)

Module Featuring.

Record FeaturingDoc : Type := mkFeaturingDoc { item : ObjectId }.

#[global] Instance FeaturingDoc_schema : Schema FeaturingDoc := {
  field d k := if String.eqb k "item" then Some (VId (item d)) else None;
  assign d k v :=
    match v with
    | VId o => if String.eqb k "item" then mkFeaturingDoc o else d
    | _ => d
    end
}.

(** The instance state besides the collection: the threshold handed to
    the constructor, a JavaScript number. *)
Record FeaturingConcept : Type := { minimumAttention : float }.

(** [a >= b] and [a < b] on numbers: the IEEE 754 comparisons, both
    false when an operand is NaN. *)
Definition geb (a b : float) : bool := PrimFloat.leb b a.
Definition ltb (a b : float) : bool := PrimFloat.ltb a b.

(** The promise [feature] is neither awaited nor looked at: the test is
    on the argument [item]. *)
Definition assertItemIsFeatured (item : ObjectId) : Async FeaturingDoc unit :=
  let feature := readOne (D := FeaturingDoc) [("item", VId item)] in
  if negb (truthy item) then throw (NotFoundError "Item is not featured!")
  else ret tt.

Definition assertItemIsNotFeatured (item : ObjectId) : Async FeaturingDoc unit :=
  let feature := readOne (D := FeaturingDoc) [("item", VId item)] in
  if truthy item then throw (NotAllowedError "Item is already featured!")
  else ret tt.

Definition promote (this : FeaturingConcept) (item : ObjectId) (attention : float)
  : Async FeaturingDoc string :=
  dropped assertItemIsNotFeatured item ;;
  if geb attention (minimumAttention this) then
    await createOne (mkFeaturingDoc item) ;;
    ret "An item has been added to a feed!"
  else
    ret "The item didn't meet the minimum attention.".

Definition depromote (this : FeaturingConcept) (item : ObjectId) (attention : float)
  : Async FeaturingDoc string :=
  dropped assertItemIsFeatured item ;;
  if ltb attention (minimumAttention this) then
    await deleteOne [("item", VId item)] ;;
    ret "An item has been depromoted"
  else
    ret "The item still has the minimum attention.".

(** The item is stored as featured. *)
Definition featured (item : ObjectId) (w : World FeaturingDoc) : bool :=
  existsb (matches [("item", VId item)]) (docs w).

End Featuring.

(* ================================================================== *)
(** * concept: Communiting [User, Item]                                 *)
(* ================================================================== *)

(** [checkObjectIdInArray]: the loop over [arr] with its early return. *)
Fixpoint checkObjectIdInArray (_id : ObjectId) (arr : list ObjectId) : bool :=
  match arr with
  | [] => false
  | id :: arr' => if equals _id id then true else checkObjectIdInArray _id arr'
  end.

(** [arr.push(x)], as the array after the call. *)
Definition push (arr : list ObjectId) (x : ObjectId) : list ObjectId :=
  (arr ++ [x])%list.

(** [arr.filter((e) => e.toString() !== x.toString())] *)
Definition without (x : ObjectId) (arr : list ObjectId) : list ObjectId :=
  List.filter (fun e => negb (String.eqb (toString e) (toString x))) arr.

(** ** [server/concepts/communiting.ts] *)
Module Communiting.

Record CommunityDoc : Type := mkCommunityDoc {
  author : ObjectId;
  title : string;
  description : string;
  items : list ObjectId;
  members : list ObjectId
}.

#[global] Instance CommunityDoc_schema : Schema CommunityDoc := {
  field d k :=
    if String.eqb k "author" then Some (VId (author d))
    else if String.eqb k "title" then Some (VStr (title d))
    else if String.eqb k "description" then Some (VStr (description d))
    else if String.eqb k "items" then Some (VIds (items d))
    else if String.eqb k "members" then Some (VIds (members d))
    else None;
  assign d k v :=
    match v with
    | VId o =>
        if String.eqb k "author"
        then mkCommunityDoc o (title d) (description d) (items d) (members d)
        else d
    | VStr s =>
        if String.eqb k "title"
        then mkCommunityDoc (author d) s (description d) (items d) (members d)
        else if String.eqb k "description"
        then mkCommunityDoc (author d) (title d) s (items d) (members d)
        else d
    | VIds l =>
        if String.eqb k "items"
        then mkCommunityDoc (author d) (title d) (description d) l (members d)
        else if String.eqb k "members"
        then mkCommunityDoc (author d) (title d) (description d) (items d) l
        else d
    | VUndefined => d
    end
}.

Definition getCommunityByID (_id : ObjectId) : Async CommunityDoc (option (Doc CommunityDoc)) :=
  readOne [("_id", VId _id)].

Definition getCommunityByTitle (title : string) : Async CommunityDoc (option (Doc CommunityDoc)) :=
  readOne [("title", VStr title)].

Definition doesnt_exist (_id : ObjectId) : error :=
  NotFoundError ("Community " ++ toString _id ++ " doesn't exist!").

Definition assertCommunityNotExists (title : string) : Async CommunityDoc unit :=
  let* community := await getCommunityByTitle title in
  match community with
  | Some _ => throw (NotAllowedError "Community already exists")
  | None => ret tt
  end.

Definition assertAuthorIsUser (_id user : ObjectId) : Async CommunityDoc unit :=
  let* community := await getCommunityByID _id in
  match community with
  | None => throw (doesnt_exist _id)
  | Some community =>
      if negb (String.eqb (toString (author (body community))) (toString user))
      then throw (CommunityAuthorNoMatchError user _id)
      else ret tt
  end.

Definition assertUserInCommunity (_id user : ObjectId) : Async CommunityDoc unit :=
  let* community := await getCommunityByID _id in
  match community with
  | None => throw (doesnt_exist _id)
  | Some community =>
      let members := members (body community) in
      if negb (checkObjectIdInArray user members)
      then throw (CommunityUserNoMatchError user _id)
      else ret tt
  end.

Definition assertUserNotInCommunity (_id user : ObjectId) : Async CommunityDoc unit :=
  let* community := await getCommunityByID _id in
  match community with
  | None => throw (doesnt_exist _id)
  | Some community =>
      let members := members (body community) in
      if checkObjectIdInArray user members
      then throw (CommunityUserNoMatchError user _id)
      else ret tt
  end.

Definition assertItemInCommunity (_id item : ObjectId) : Async CommunityDoc unit :=
  let* community := await getCommunityByID _id in
  match community with
  | None => throw (doesnt_exist _id)
  | Some community =>
      let items := items (body community) in
      if negb (checkObjectIdInArray item items)
      then throw (CommunityUserNoMatchError item _id)
      else ret tt
  end.

Definition assertItemNotInCommunity (_id item : ObjectId) : Async CommunityDoc unit :=
  let* community := await getCommunityByID _id in
  match community with
  | None => throw (doesnt_exist _id)
  | Some community =>
      let items := items (body community) in
      if checkObjectIdInArray item items
      then throw (CommunityUserNoMatchError item _id)
      else ret tt
  end.

(** [assertCommunityNotExists(title)] is called without [await]. *)
Definition create (author : ObjectId) (title description : string)
  : Async CommunityDoc (string * option (Doc CommunityDoc)) :=
  dropped assertCommunityNotExists title ;;
  let newItemsArray := @nil ObjectId in
  let newMembersArray := [author] in
  let* _id := await createOne
                (mkCommunityDoc author title description newItemsArray newMembersArray) in
  let* community := await readOne [("_id", VId _id)] in
  ret ("Community Succesfully Created!", community).

Definition delete (_id : ObjectId) : Async CommunityDoc string :=
  await deleteOne [("_id", VId _id)] ;;
  ret "Community Succesfully Deleted!".

Definition getNumMembers (_id : ObjectId) : Async CommunityDoc nat :=
  let* community := await getCommunityByID _id in
  match community with
  | None => throw (doesnt_exist _id)
  | Some community =>
      let members := members (body community) in
      ret (length members)
  end.

(** The assertion is declared [(_id, user)] and called [(user, _id)]. *)
Definition join (user _id : ObjectId) : Async CommunityDoc string :=
  let* community := await getCommunityByID _id in
  await assertUserNotInCommunity user _id ;;
  let newMembersArray :=
    option_map (fun c => push (members (body c)) user) community in
  await partialUpdateOne [("_id", VId _id)]
                         [("members", array_or_undefined newMembersArray)] ;;
  ret "A user has joined the community!".

Definition leave (user _id : ObjectId) : Async CommunityDoc string :=
  let* community := await getCommunityByID _id in
  await assertUserInCommunity user _id ;;
  let oldMembersArray := option_map (fun c => members (body c)) community in
  let newMembersArray := option_map (without user) oldMembersArray in
  await partialUpdateOne [("_id", VId _id)]
                         [("members", array_or_undefined newMembersArray)] ;;
  ret "A user has left the community!".

Definition addItem (item _id : ObjectId) : Async CommunityDoc string :=
  let* community := await getCommunityByID _id in
  await assertItemNotInCommunity item _id ;;
  let newItemsArray :=
    option_map (fun c => push (items (body c)) item) community in
  await partialUpdateOne [("_id", VId _id)]
                         [("items", array_or_undefined newItemsArray)] ;;
  ret "An item has been added to the community!".

Definition deleteItem (item _id : ObjectId) : Async CommunityDoc string :=
  let* community := await getCommunityByID _id in
  await assertItemInCommunity item _id ;;
  let oldItemsArray := option_map (fun c => items (body c)) community in
  let newItemsArray := option_map (without item) oldItemsArray in
  await partialUpdateOne [("_id", VId _id)]
                         [("items", array_or_undefined newItemsArray)] ;;
  ret "An item has been deleted from the community!".

(** The author of a community is among its members. *)
Definition author_in_members (d : Doc CommunityDoc) : Prop :=
  In (author (body d)) (members (body d)).

(** The invariant: so it is for every stored community. *)
Definition authors_are_members (w : World CommunityDoc) : Prop :=
  Forall author_in_members (docs w).

(** A community with this title is stored. *)
Definition title_taken (t : string) (w : World CommunityDoc) : bool :=
  existsb (matches [("title", VStr t)]) (docs w).

End Communiting.

(** ** [unnamed/part_000]: the same concept without the items, with the
       assertions awaited and called in their declared argument order *)
Module CommunitingMembers.

Record CommunityDoc : Type := mkCommunityDoc {
  author : ObjectId;
  title : string;
  description : string;
  members : list ObjectId
}.

#[global] Instance CommunityDoc_schema : Schema CommunityDoc := {
  field d k :=
    if String.eqb k "author" then Some (VId (author d))
    else if String.eqb k "title" then Some (VStr (title d))
    else if String.eqb k "description" then Some (VStr (description d))
    else if String.eqb k "members" then Some (VIds (members d))
    else None;
  assign d k v :=
    match v with
    | VId o =>
        if String.eqb k "author"
        then mkCommunityDoc o (title d) (description d) (members d)
        else d
    | VStr s =>
        if String.eqb k "title"
        then mkCommunityDoc (author d) s (description d) (members d)
        else if String.eqb k "description"
        then mkCommunityDoc (author d) (title d) s (members d)
        else d
    | VIds l =>
        if String.eqb k "members"
        then mkCommunityDoc (author d) (title d) (description d) l
        else d
    | VUndefined => d
    end
}.

Definition getCommunityByID (_id : ObjectId) : Async CommunityDoc (option (Doc CommunityDoc)) :=
  readOne [("_id", VId _id)].

Definition getCommunityByTitle (title : string) : Async CommunityDoc (option (Doc CommunityDoc)) :=
  readOne [("title", VStr title)].

Definition doesnt_exist (_id : ObjectId) : error :=
  NotFoundError ("Community " ++ toString _id ++ " doesn't exist!").

Definition assertCommunityNotExists (title : string) : Async CommunityDoc unit :=
  let* community := await getCommunityByTitle title in
  match community with
  | Some _ => throw (NotAllowedError "Community already exists!")
  | None => ret tt
  end.

Definition assertCommunityExists (_id : ObjectId) : Async CommunityDoc unit :=
  let* community := await getCommunityByID _id in
  match community with
  | None => throw (NotFoundError "Community doesn't exist!")
  | Some _ => ret tt
  end.

Definition assertAuthorIsUser (_id user : ObjectId) : Async CommunityDoc unit :=
  let* community := await getCommunityByID _id in
  match community with
  | None => throw (doesnt_exist _id)
  | Some community =>
      if negb (String.eqb (toString (author (body community))) (toString user))
      then throw (CommunityAuthorNoMatchError user _id)
      else ret tt
  end.

Definition assertUserInCommunity (_id user : ObjectId) : Async CommunityDoc unit :=
  let* community := await getCommunityByID _id in
  match community with
  | None => throw (doesnt_exist _id)
  | Some community =>
      let members := members (body community) in
      if negb (checkObjectIdInArray user members)
      then throw (CommunityUserNoMatchError user _id)
      else ret tt
  end.

Definition assertUserNotInCommunity (_id user : ObjectId) : Async CommunityDoc unit :=
  let* community := await getCommunityByID _id in
  match community with
  | None => throw (doesnt_exist _id)
  | Some community =>
      let members := members (body community) in
      if checkObjectIdInArray user members
      then throw (CommunityMemberExistsError user _id)
      else ret tt
  end.

Definition create (author : ObjectId) (title description : string)
  : Async CommunityDoc (string * option (Doc CommunityDoc)) :=
  await assertCommunityNotExists title ;;
  let newMembersArray := [author] in
  let* _id := await createOne
                (mkCommunityDoc author title description newMembersArray) in
  let* community := await readOne [("_id", VId _id)] in
  ret ("Community Succesfully Created!", community).

Definition delete (_id : ObjectId) : Async CommunityDoc string :=
  await deleteOne [("_id", VId _id)] ;;
  ret "Community Succesfully Deleted!".

Definition getNumMembers (_id : ObjectId) : Async CommunityDoc nat :=
  let* community := await getCommunityByID _id in
  match community with
  | None => throw (doesnt_exist _id)
  | Some community =>
      let members := members (body community) in
      ret (length members)
  end.

Definition join (user _id : ObjectId) : Async CommunityDoc string :=
  let* community := await getCommunityByID _id in
  await assertUserNotInCommunity _id user ;;
  let newMembersArray :=
    option_map (fun c => push (members (body c)) user) community in
  await partialUpdateOne [("_id", VId _id)]
                         [("members", array_or_undefined newMembersArray)] ;;
  ret "A user has joined the community!".

Definition leave (user _id : ObjectId) : Async CommunityDoc string :=
  let* community := await getCommunityByID _id in
  await assertUserInCommunity _id user ;;
  let oldMembersArray := option_map (fun c => members (body c)) community in
  let newMembersArray := option_map (without user) oldMembersArray in
  await partialUpdateOne [("_id", VId _id)]
                         [("members", array_or_undefined newMembersArray)] ;;
  ret "A user has left the community!".

(** A world holding one community. *)
Definition single (cid author : ObjectId) (t description : string)
           (ms : list ObjectId) (n : N) (u : list error) : World CommunityDoc :=
  mkWorld [mkDoc cid (mkCommunityDoc author t description ms)] n u.

(** The author of a community is among its members. *)
Definition author_in_members (d : Doc CommunityDoc) : Prop :=
  In (author (body d)) (members (body d)).

(** The invariant: so it is for every stored community. *)
Definition authors_are_members (w : World CommunityDoc) : Prop :=
  Forall author_in_members (docs w).

(** A community with this title is stored. *)
Definition title_taken (t : string) (w : World CommunityDoc) : bool :=
  existsb (matches [("title", VStr t)]) (docs w).

End CommunitingMembers.

(* ================================================================== *)
(** * Error messages and their enrichment  ([server/responses.ts])     *)
(* ================================================================== *)

Module Errors.

Definition is_digit (c : ascii) : bool :=
  (48 <=? nat_of_ascii c)%nat && (nat_of_ascii c <=? 57)%nat.

Definition digit_value (c : ascii) : nat := nat_of_ascii c - 48.

(** Modelled from the spec: [concepts/errors.ts] is not among the
    sources.  An error carries "a message template with positional
    placeholders"; a placeholder is an opening brace, a decimal
    position and a closing brace, and it is replaced by the argument at
    that position.  The scan keeps in [pending] the text of a
    placeholder being read and the position read so far; text that
    turns out not to be a placeholder, or to name no argument, is copied
    as it stands. *)
Fixpoint substitute_from (pending : option (string * nat))
         (template : string) (args : list string) : string :=
  match template with
  | EmptyString =>
      match pending with
      | None => ""
      | Some (seen, _) => seen
      end
  | String c rest =>
      match pending with
      | None =>
          if Ascii.eqb c "{" then substitute_from (Some ("{", 0)) rest args
          else String c (substitute_from None rest args)
      | Some (seen, n) =>
          if is_digit c
          then substitute_from
                 (Some (seen ++ String c "", 10 * n + digit_value c)) rest args
          else if Ascii.eqb c "}" && (1 <? String.length seen)%nat
          then match nth_error args n with
               | Some a => a
               | None => seen ++ "}"
               end ++ substitute_from None rest args
          else if Ascii.eqb c "{"
          then seen ++ substitute_from (Some ("{", 0)) rest args
          else seen ++ String c (substitute_from None rest args)
      end
  end.

Definition substitute (template : string) (args : list string) : string :=
  substitute_from None template args.

(** Modelled from the spec: the message of an error as thrown, "the raw
    template (with raw ids substituted positionally)". *)
Definition message (e : error) : string :=
  substitute (format e) (map toString (raw_args e)).

(** Modelled from the spec: [e.formatWith(a, b)] gives the message of
    [e]'s template with [a] and [b] in place of the raw arguments. *)
Definition formatWith (e : error) (args : list string) : string :=
  substitute (format e) args.

End Errors.

Module Responses.
Import Errors.

(** Modelled from the spec: [concepts/authenticating.ts] is not among
    the sources; of a user the resolvers read the [username]. *)
Record UserDoc : Type := mkUserDoc { username : string }.

Section Registry.

(** [Authing.getUserById]: [concepts/authenticating.ts] is not among
    the sources; the lookup is a parameter of the registry. *)
Variable getUserById : ObjectId -> error + UserDoc.

Definition with_username (who : ObjectId) (k : string -> string)
  : error + string :=
  match getUserById who with
  | inl e => inl e
  | inr user => inr (k (username user))
  end.

(** The resolvers registered with [Router.registerError], by the class
    of the error; [None] for a class without one. *)
Definition registered (e : error) : option (error + string) :=
  match e with
  | CommunityAuthorNoMatchError author _id =>
      Some (with_username author
              (fun username => formatWith e [username; toString _id]))
  | CommunityUserNoMatchError member _id =>
      Some (with_username member
              (fun username => formatWith e [username; toString _id]))
  | CommunityMemberExistsError member _id =>
      Some (with_username member
              (fun username => formatWith e [username; toString _id]))
  | FeedItemExistsError item _id =>
      Some (inr (formatWith e [toString item; toString _id]))
  | FeedItemNoMatchError item _id =>
      Some (inr (formatWith e [toString item; toString _id]))
  | FavoriteItemNoMatchError user item =>
      Some (with_username user
              (fun username => formatWith e [username; toString item]))
  | FavoriteItemExistsError user item =>
      Some (with_username user
              (fun username => formatWith e [username; toString item]))
  | _ => None
  end.

(** Modelled from the spec: [framework/router.ts] is not among the
    sources.  A caught error goes through the resolver registered for
    its class; without one its own message is the answer. *)
Definition enrich (e : error) : error + string :=
  match registered e with
  | Some answer => answer
  | None => inr (message e)
  end.

End Registry.

End Responses.

(* ================================================================== *)
(** * Requests in sequence, stored-state predicates and routes          *)
(* ================================================================== *)

(** ** Sequences of calls on the feed *)

Module FeedCalls.

(** The two updating actions of [feeding.ts], as requests. *)
Inductive call : Type :=
| AddItem (item feed : ObjectId)
| DeleteItem (item feed : ObjectId).

Definition perform (c : call) : Async Feeding.FeedDoc string :=
  match c with
  | AddItem item feed => Feeding.addItem item feed
  | DeleteItem item feed => Feeding.deleteItem item feed
  end.

(** The world after a sequence of requests; a rejected request does not
    stop the ones after it. *)
Fixpoint perform_all (cs : list call) (w : World Feeding.FeedDoc)
  : World Feeding.FeedDoc :=
  match cs with
  | [] => w
  | c :: cs' => perform_all cs' (snd (perform c w))
  end.

Definition is_add (c : call) : bool :=
  match c with
  | AddItem _ _ => true
  | DeleteItem _ _ => false
  end.

End FeedCalls.

(** ** Predicates on the communities of [unnamed/part_000] *)

(** No identifier occurs twice among the members of a community. *)
Definition members_distinct (w : World CommunitingMembers.CommunityDoc) : Prop :=
  Forall (fun d => NoDup (CommunitingMembers.members (body d))) (docs w).

(** The titles of the stored communities, in insertion order. *)
Definition titles (w : World CommunitingMembers.CommunityDoc) : list string :=
  map (fun d => CommunitingMembers.title (body d)) (docs w).

(** The identifiers of the stored communities, in insertion order. *)
Definition community_ids (w : World CommunitingMembers.CommunityDoc) : list ObjectId :=
  map _id (docs w).

(** ** The routes of the items of a community  ([server/routes.ts]) *)

Module Routes.

(** The two collections these routes touch: [Communiting.communities]
    and [Feeding.feeds]. *)
Record App : Type := mkApp {
  communities : World CommunitingMembers.CommunityDoc;
  feeds : World Feeding.FeedDoc
}.

(** What a handler can end with besides a value: the rejection of a
    concept, or the exception of the driver's [ObjectId] constructor. *)
Inductive thrown : Type :=
| Rejected (e : error)
| ConstructorThrew.

Definition Handler (A : Type) : Type := App -> (thrown + A) * App.

Definition done {A} (a : A) : Handler A := fun app => (inr a, app).

Definition next {A B} (m : Handler A) (k : A -> Handler B) : Handler B :=
  fun app =>
    match m app with
    | (inl t, app') => (inl t, app')
    | (inr a, app') => k a app'
    end.

(** [await Communiting.m(...)] *)
Definition onCommunities {A} (m : Async CommunitingMembers.CommunityDoc A) : Handler A :=
  fun app =>
    match m (communities app) with
    | (inl e, w) => (inl (Rejected e), mkApp w (feeds app))
    | (inr a, w) => (inr a, mkApp w (feeds app))
    end.

(** [await Feeding.m(...)] *)
Definition onFeeds {A} (m : Async Feeding.FeedDoc A) : Handler A :=
  fun app =>
    match m (feeds app) with
    | (inl e, w) => (inl (Rejected e), mkApp (communities app) w)
    | (inr a, w) => (inr a, mkApp (communities app) w)
    end.

Section WithDriver.

(** [new ObjectId(id)] of the [mongodb] package, which is not among the
    sources: a parameter, [None] where the constructor throws. *)
Variable newObjectId : string -> option ObjectId.

Definition construct (id : string) : Handler ObjectId :=
  fun app =>
    match newObjectId id with
    | Some oid => (inr oid, app)
    | None => (inl ConstructorThrew, app)
    end.

(** [GET /communities/:id/items] *)
Definition getCommunityItems (id : string) : Handler (list (Doc Feeding.FeedDoc)) :=
  next (construct id) (fun oid =>
  next (onCommunities (CommunitingMembers.assertCommunityExists oid)) (fun _ =>
  onFeeds (Feeding.getItems oid))).

(** [POST /communities/:id/items/] *)
Definition addCommunityItem (id itemID : string) : Handler string :=
  next (construct id) (fun communityObjectID =>
  next (construct itemID) (fun itemObjectID =>
  next (onCommunities (CommunitingMembers.assertCommunityExists communityObjectID)) (fun _ =>
  onFeeds (Feeding.addItem itemObjectID communityObjectID)))).

(** [DELETE /communities/:id/items/:itemID] *)
Definition deleteCommunityItem (id itemID : string) : Handler string :=
  next (construct id) (fun communityObjectID =>
  next (construct itemID) (fun itemObjectID =>
  next (onCommunities (CommunitingMembers.assertCommunityExists communityObjectID)) (fun _ =>
  onFeeds (Feeding.deleteItem itemObjectID communityObjectID)))).

End WithDriver.

End Routes.

(* ================================================================== *)
(** * The identifiers of the scenarios                                  *)
(* ================================================================== *)

Module Scenario.

Definition alice : ObjectId := OID "a11ce0000000000000000001".
Definition bob : ObjectId := OID "b0b000000000000000000002".
Definition itemX : ObjectId := OID "1e3000000000000000000003".
Definition hikersFeed : ObjectId := OID "feed00000000000000000004".

(** [new FeaturingConcept("features", 10)] *)
Definition featuring : Featuring.FeaturingConcept :=
  {| Featuring.minimumAttention := 10%float |}.

(** Whom the resolvers find under an identifier. *)
Definition users (who : ObjectId) : error + Responses.UserDoc :=
  if equals who alice then inr (Responses.mkUserDoc "alice")
  else if equals who bob then inr (Responses.mkUserDoc "bob")
  else inl (NotFoundError "User not found!").

End Scenario.

(* ================================================================== *)
(** * Properties                                                        *)
(* ================================================================== *)

(** ** Identifiers and the generic collection *)

Lemma equals_eq (a b : ObjectId) : equals a b = true <-> a = b.
Proof.
  destruct a as [x], b as [y]; unfold equals; simpl.
  rewrite String.eqb_eq. split; congruence.
Qed.

Lemma equals_refl (a : ObjectId) : equals a a = true.
Proof. now apply equals_eq. Qed.

Lemma equals_neq (a b : ObjectId) : equals a b = false <-> a <> b.
Proof.
  rewrite <- equals_eq. destruct (equals a b); split; congruence.
Qed.

Lemma find_none_of_all_false {A} (f : A -> bool) (l : list A) :
  (forall x, f x = false) -> find f l = None.
Proof.
  intros Hf. induction l as [|x l IH]; simpl; [easy|]. now rewrite Hf.
Qed.

Lemma existsb_false_find {A} (f : A -> bool) (l : list A) :
  existsb f l = false -> find f l = None.
Proof.
  induction l as [|x l IH]; simpl; [easy|].
  destruct (f x); simpl; [discriminate | exact IH].
Qed.

Lemma existsb_true_find {A} (f : A -> bool) (l : list A) :
  existsb f l = true -> exists x, find f l = Some x.
Proof.
  induction l as [|x l IH]; simpl; [discriminate|].
  destruct (f x); simpl; [now exists x | exact IH].
Qed.

Section CollectionFacts.
Context {D : Type} `{Schema D}.

(** Removing the first match of a filter that a just appended document
    is the first to pass gives the list before the insertion. *)
Lemma remove_first_appended (filter : object) (l : list (Doc D)) (d : Doc D) :
  existsb (matches filter) l = false ->
  matches filter d = true ->
  remove_first filter (l ++ [d]) = l.
Proof.
  intros Hl Hd. induction l as [|x l IH]; simpl in *.
  - now rewrite Hd.
  - destruct (matches filter x); simpl in Hl; [discriminate|].
    now rewrite IH.
Qed.

Lemma remove_first_unmatched (filter : object) (l : list (Doc D)) :
  existsb (matches filter) l = false -> remove_first filter l = l.
Proof.
  induction l as [|x l IH]; simpl; [easy|].
  destruct (matches filter x); simpl; [discriminate|].
  intros Hl. now rewrite IH.
Qed.

Lemma update_first_unmatched (filter update : object) (l : list (Doc D)) :
  existsb (matches filter) l = false -> update_first filter update l = l.
Proof.
  induction l as [|x l IH]; simpl; [easy|].
  destruct (matches filter x); simpl; [discriminate|].
  intros Hl. now rewrite IH.
Qed.

Lemma matches_id (d : Doc D) (i : ObjectId) :
  matches [("_id", VId i)] d = equals (_id d) i.
Proof. unfold matches, doc_field; simpl. now rewrite andb_true_r. Qed.

End CollectionFacts.

(** Unfolds the asynchronous plumbing of an action down to the list
    functions of the collection. *)
Ltac run :=
  unfold bind, detach, ret, throw, createOne, readOne, readMany,
    partialUpdateOne, deleteOne; simpl.

(** ** Feeding *)

Module FeedingFacts.
Import Feeding.

(** No feed document has a [community] field: the filter of both
    assertions passes no document. *)
Lemma community_filter_passes_nothing (x y : ObjectId) (d : Doc FeedDoc) :
  matches [("community", VId x); ("item", VId y)] d = false.
Proof. reflexivity. Qed.

Lemma assertItemNotInFeed_returns (x y : ObjectId) (w : World FeedDoc) :
  assertItemNotInFeed x y w = (inr tt, w).
Proof.
  unfold assertItemNotInFeed. run.
  rewrite find_none_of_all_false; [reflexivity|].
  intros d. apply community_filter_passes_nothing.
Qed.

Lemma assertItemInFeed_throws (x y : ObjectId) (w : World FeedDoc) :
  assertItemInFeed x y w = (inl (FeedItemNoMatchError y x), w).
Proof.
  unfold assertItemInFeed. run.
  rewrite find_none_of_all_false; [reflexivity|].
  intros d. apply community_filter_passes_nothing.
Qed.

(** [addItem] stores a document in every world, also one that holds
    the pair already. *)
Lemma addItem_always_stores (item feed : ObjectId) (w : World FeedDoc) :
  addItem item feed w =
  (inr "An item has been added to a feed!",
   mkWorld (docs w ++ [mkDoc (generated (issued w)) (mkFeedDoc feed item)])
           (issued w + 1) (unhandled w)).
Proof.
  unfold addItem, bind. rewrite assertItemNotInFeed_returns. reflexivity.
Qed.

(** [deleteItem] rejects in every world, also one that holds the pair,
    and removes nothing. *)
Lemma deleteItem_always_rejects (item feed : ObjectId) (w : World FeedDoc) :
  deleteItem item feed w = (inl (FeedItemNoMatchError feed item), w).
Proof.
  unfold deleteItem, bind. rewrite assertItemInFeed_throws. reflexivity.
Qed.

End FeedingFacts.

(** ** Favoriting *)

Module FavoritingFacts.
Import Favoriting.

Lemma matches_pair (u x : ObjectId) (d : Doc FavoriteDoc) :
  matches [("user", VId u); ("item", VId x)] d
  = equals (user (body d)) u && equals (item (body d)) x.
Proof. unfold matches, doc_field; simpl. now rewrite andb_true_r. Qed.

Lemma favorite_matches_item (x : ObjectId) (d : Doc FavoriteDoc) :
  matches [("item", VId x)] d = equals (item (body d)) x.
Proof. unfold matches, doc_field; simpl. now rewrite andb_true_r. Qed.

(** [favorite] never rejects and stores a document in every world. *)
Lemma favorite_always_stores (u x : ObjectId) (w : World FavoriteDoc) :
  exists r,
    favorite u x w =
    (inr ("A user has favorited an item!", r),
     mkWorld (docs w ++ [mkDoc (generated (issued w)) (mkFavoriteDoc u x)])
             (issued w + 1)
             (unhandled w ++ rejection_if (present u x w) (FavoriteItemExistsError u x))).
Proof.
  unfold favorite, assertItemIsNotFavorite, present, rejection_if. run.
  destruct (existsb _ (docs w)) eqn:E.
  - apply existsb_true_find in E as [d ->]. simpl. eexists. reflexivity.
  - apply existsb_false_find in E. rewrite E. simpl.
    rewrite app_nil_r. destruct w; simpl. eexists. reflexivity.
Qed.

(** [unfavorite] never rejects. *)
Lemma unfavorite_never_rejects (u x : ObjectId) (w : World FavoriteDoc) :
  unfavorite u x w =
  (inr "A user has unfavorited an item!",
   mkWorld (remove_first [("user", VId u); ("item", VId x)] (docs w))
           (issued w)
           (unhandled w ++ rejection_if (negb (present u x w)) (FavoriteItemNoMatchError u x))).
Proof.
  unfold unfavorite, assertItemIsFavorite, present, rejection_if. run.
  destruct (existsb _ (docs w)) eqn:E.
  - apply existsb_true_find in E as [d ->]. simpl.
    rewrite app_nil_r. reflexivity.
  - apply existsb_false_find in E. rewrite E. simpl. reflexivity.
Qed.

(** Favoriting an item the user has not favorited, then unfavoriting
    it, gives back the stored documents as they were. *)
Lemma favorite_unfavorite_roundtrip (u x : ObjectId) (w : World FavoriteDoc) :
  present u x w = false ->
  exists r,
    fst (favorite u x w) = inr r /\
    fst (unfavorite u x (snd (favorite u x w))) = inr "A user has unfavorited an item!" /\
    docs (snd (unfavorite u x (snd (favorite u x w)))) = docs w.
Proof.
  intros Habs.
  destruct (favorite_always_stores u x w) as [r Hf].
  rewrite Hf, unfavorite_never_rejects. simpl.
  eexists. split; [reflexivity|]. split; [reflexivity|].
  apply remove_first_appended; [exact Habs|].
  rewrite matches_pair. simpl. now rewrite !equals_refl.
Qed.

End FavoritingFacts.

(** ** Featuring *)

Module FeaturingFacts.
Import Featuring.

(** The two comparisons of the IEEE 754 model never both hold. *)
Lemma SFcompare_antisym (x y : spec_float) :
  SFcompare y x = option_map CompOpp (SFcompare x y).
Proof.
  destruct x as [sx|sx| |sx mx ex], y as [sy|sy| |sy my ey]; simpl;
    try reflexivity;
    try (destruct sx; reflexivity);
    try (destruct sy; reflexivity);
    try (destruct sx, sy; reflexivity).
  destruct sx, sy; simpl; try reflexivity;
    rewrite (Z.compare_antisym ex ey); destruct (ex ?= ey)%Z; simpl;
    try reflexivity;
    change (Pos.compare_cont Eq my mx) with (my ?= mx)%positive;
    change (Pos.compare_cont Eq mx my) with (mx ?= my)%positive;
    rewrite (Pos.compare_antisym mx my);
    destruct (mx ?= my)%positive; reflexivity.
Qed.

Lemma ltb_geb_exclusive (a m : float) : ltb a m = true -> geb a m = false.
Proof.
  unfold ltb, geb. rewrite ltb_spec, leb_spec. unfold SFltb, SFleb.
  rewrite (SFcompare_antisym (Prim2SF a) (Prim2SF m)).
  destruct (SFcompare (Prim2SF a) (Prim2SF m)) as [[| |]|]; simpl; congruence.
Qed.

Lemma geb_ltb_exclusive (a m : float) : geb a m = true -> ltb a m = false.
Proof.
  intros Hge. destruct (ltb a m) eqn:Hlt; [|reflexivity].
  apply ltb_geb_exclusive in Hlt. congruence.
Qed.

Lemma feature_matches_item (x : ObjectId) (d : Doc FeaturingDoc) :
  matches [("item", VId x)] d = equals (item (body d)) x.
Proof. unfold matches, doc_field; simpl. now rewrite andb_true_r. Qed.

(** The assertions do not depend on the collection: one always
    rejects, the other never does. *)
Lemma assertItemIsNotFeatured_rejects (x : ObjectId) (w : World FeaturingDoc) :
  assertItemIsNotFeatured x w = (inl (NotAllowedError "Item is already featured!"), w).
Proof. reflexivity. Qed.

Lemma assertItemIsFeatured_returns (x : ObjectId) (w : World FeaturingDoc) :
  assertItemIsFeatured x w = (inr tt, w).
Proof. reflexivity. Qed.

(** [promote] at or above the threshold stores a document in every
    world, also when the item is featured already. *)
Lemma promote_above (this : FeaturingConcept) (x : ObjectId) (attention : float)
      (w : World FeaturingDoc) :
  geb attention (minimumAttention this) = true ->
  promote this x attention w =
  (inr "An item has been added to a feed!",
   mkWorld (docs w ++ [mkDoc (generated (issued w)) (mkFeaturingDoc x)])
           (issued w + 1)
           (unhandled w ++ [NotAllowedError "Item is already featured!"])).
Proof. intros Hge. unfold promote. run. rewrite Hge. reflexivity. Qed.

Lemma promote_below (this : FeaturingConcept) (x : ObjectId) (attention : float)
      (w : World FeaturingDoc) :
  geb attention (minimumAttention this) = false ->
  promote this x attention w =
  (inr "The item didn't meet the minimum attention.",
   mkWorld (docs w) (issued w)
           (unhandled w ++ [NotAllowedError "Item is already featured!"])).
Proof. intros Hge. unfold promote. run. rewrite Hge. reflexivity. Qed.

Lemma depromote_below (this : FeaturingConcept) (x : ObjectId) (attention : float)
      (w : World FeaturingDoc) :
  ltb attention (minimumAttention this) = true ->
  depromote this x attention w =
  (inr "An item has been depromoted",
   mkWorld (remove_first [("item", VId x)] (docs w)) (issued w) (unhandled w)).
Proof. intros Hlt. unfold depromote. run. rewrite Hlt. reflexivity. Qed.

Lemma depromote_above (this : FeaturingConcept) (x : ObjectId) (attention : float)
      (w : World FeaturingDoc) :
  ltb attention (minimumAttention this) = false ->
  depromote this x attention w =
  (inr "The item still has the minimum attention.", w).
Proof. intros Hlt. unfold depromote. run. rewrite Hlt. reflexivity. Qed.



Lemma featured_app (x : ObjectId) (l : list (Doc FeaturingDoc)) (n : N)
      (u : list error) (d : Doc FeaturingDoc) :
  featured x (mkWorld (l ++ [d]) n u)
  = featured x (mkWorld l n u) || equals (item (body d)) x.
Proof.
  unfold featured. cbn [docs]. rewrite existsb_app. cbn [existsb].
  now rewrite feature_matches_item, orb_false_r.
Qed.

End FeaturingFacts.

(** ** Arrays of identifiers *)

Arguments matches : simpl never.
Arguments generated : simpl never.

(** Evaluates an action on a world whose documents are given, one
    identity test at a time. *)
Ltac on_docs :=
  repeat first
    [ rewrite matches_id
    | rewrite equals_refl
    | progress simpl ].

Lemma checkObjectIdInArray_In (x : ObjectId) (arr : list ObjectId) :
  checkObjectIdInArray x arr = true <-> In x arr.
Proof.
  induction arr as [|y arr IH]; simpl.
  - split; [discriminate | tauto].
  - destruct (equals x y) eqn:E.
    + apply equals_eq in E. subst. tauto.
    + apply equals_neq in E. rewrite IH. split; [tauto|].
      intros [->|Hin]; [contradiction | exact Hin].
Qed.

Lemma In_push (x y : ObjectId) (arr : list ObjectId) :
  In x arr -> In x (push arr y).
Proof. intros Hin. unfold push. apply in_or_app. now left. Qed.

Lemma In_without (x y : ObjectId) (arr : list ObjectId) :
  In x (without y arr) <-> In x arr /\ x <> y.
Proof.
  unfold without. rewrite filter_In, negb_true_iff.
  change (String.eqb (toString x) (toString y)) with (equals x y).
  now rewrite equals_neq.
Qed.

Section UpdateFacts.
Context {D : Type} `{Schema D}.

(** A property of all documents survives [update_first] when the
    patched first match has it. *)
Lemma update_first_Forall (P : Doc D -> Prop) (filter update : object)
      (l : list (Doc D)) :
  Forall P l ->
  (forall c, find (matches filter) l = Some c -> P (patch update c)) ->
  Forall P (update_first filter update l).
Proof.
  induction l as [|x l IH]; simpl; intros Hall Hc; [constructor|].
  inversion Hall as [|? ? Hx Hl]; subst.
  destruct (matches filter x).
  - constructor; [now apply Hc | exact Hl].
  - constructor; [exact Hx | now apply IH].
Qed.

Lemma remove_first_Forall (P : Doc D -> Prop) (filter : object)
      (l : list (Doc D)) :
  Forall P l -> Forall P (remove_first filter l).
Proof.
  induction l as [|x l IH]; simpl; intros Hall; [constructor|].
  inversion Hall as [|? ? Hx Hl]; subst.
  destruct (matches filter x); [exact Hl|].
  constructor; [exact Hx | now apply IH].
Qed.

Lemma find_id_absent (i : ObjectId) (l : list (Doc D)) :
  (forall d, In d l -> _id d <> i) ->
  existsb (matches [("_id", VId i)]) l = false.
Proof.
  induction l as [|x l IH]; cbn [existsb]; intros Hno; [reflexivity|].
  rewrite matches_id.
  assert (Hx : equals (_id x) i = false) by (apply equals_neq, Hno; now left).
  rewrite Hx. cbn [orb]. apply IH. intros d Hd. apply Hno. now right.
Qed.

End UpdateFacts.

(** ** Communiting, as in [unnamed/part_000] *)

Module CommunitingMembersFacts.
Import CommunitingMembers.

Lemma matches_title (t : string) (d : Doc CommunityDoc) :
  matches [("title", VStr t)] d = String.eqb (title (body d)) t.
Proof. unfold matches, doc_field; simpl. now rewrite andb_true_r. Qed.

Lemma find_title (t : string) (l : list (Doc CommunityDoc)) :
  (exists d, In d l /\ title (body d) = t) ->
  exists c, find (matches [("title", VStr t)]) l = Some c.
Proof.
  intros (d & Hin & Ht). apply existsb_true_find, existsb_exists.
  exists d. split; [exact Hin|]. rewrite matches_title. now apply String.eqb_eq.
Qed.

(** A title that is taken: [create] rejects with [NotAllowedError] for
    every author and stores nothing. *)
Lemma create_rejects_taken_title (author2 : ObjectId) (t description : string)
      (w : World CommunityDoc) :
  (exists d, In d (docs w) /\ title (body d) = t) ->
  create author2 t description w =
  (inl (NotAllowedError "Community already exists!"), w).
Proof.
  intros Hex. apply find_title in Hex as [c Hc].
  unfold create, assertCommunityNotExists, getCommunityByTitle, bind, readOne.
  rewrite Hc. reflexivity.
Qed.

(** The assertions only read. *)
Lemma assertUserInCommunity_pure (i u : ObjectId) (w : World CommunityDoc) :
  snd (assertUserInCommunity i u w) = w.
Proof.
  unfold assertUserInCommunity, getCommunityByID, bind, readOne, throw, ret.
  destruct (find _ (docs w)); [|reflexivity].
  now destruct (checkObjectIdInArray _ _).
Qed.

Lemma assertUserNotInCommunity_pure (i u : ObjectId) (w : World CommunityDoc) :
  snd (assertUserNotInCommunity i u w) = w.
Proof.
  unfold assertUserNotInCommunity, getCommunityByID, bind, readOne, throw, ret.
  destruct (find _ (docs w)); [|reflexivity].
  now destruct (checkObjectIdInArray _ _).
Qed.

Lemma create_first (author : ObjectId) (t description : string) (n : N)
      (u : list error) :
  create author t description (mkWorld [] n u) =
  (inr ("Community Succesfully Created!",
        Some (mkDoc (generated n) (mkCommunityDoc author t description [author]))),
   single (generated n) author t description [author] (n + 1) u).
Proof.
  unfold create, assertCommunityNotExists, getCommunityByTitle, single,
    bind, readOne, createOne, ret.
  cbn [docs issued unhandled find app].
  rewrite matches_id. cbn [_id]. now rewrite equals_refl.
Qed.

Section Single.
Variables (cid author : ObjectId) (t description : string)
          (ms : list ObjectId) (n : N) (u : list error).

Lemma getNumMembers_single :
  getNumMembers cid (single cid author t description ms n u) =
  (inr (length ms), single cid author t description ms n u).
Proof.
  unfold getNumMembers, getCommunityByID, single, bind, readOne, ret.
  cbn [docs find]. rewrite matches_id. cbn [_id]. now rewrite equals_refl.
Qed.

Lemma join_single (user : ObjectId) :
  checkObjectIdInArray user ms = false ->
  join user cid (single cid author t description ms n u) =
  (inr "A user has joined the community!",
   single cid author t description (push ms user) n u).
Proof.
  intros Hnot.
  unfold join, assertUserNotInCommunity, getCommunityByID, single,
    bind, readOne, partialUpdateOne, ret, throw.
  on_docs. rewrite Hnot. on_docs. reflexivity.
Qed.

Lemma leave_single_member (user : ObjectId) :
  checkObjectIdInArray user ms = true ->
  leave user cid (single cid author t description ms n u) =
  (inr "A user has left the community!",
   single cid author t description (without user ms) n u).
Proof.
  intros Hin.
  unfold leave, assertUserInCommunity, getCommunityByID, single,
    bind, readOne, partialUpdateOne, ret, throw.
  on_docs. rewrite Hin. on_docs. reflexivity.
Qed.

Lemma leave_single_stranger (user : ObjectId) :
  checkObjectIdInArray user ms = false ->
  leave user cid (single cid author t description ms n u) =
  (inl (CommunityUserNoMatchError user cid),
   single cid author t description ms n u).
Proof.
  intros Hnot.
  unfold leave, assertUserInCommunity, getCommunityByID, single,
    bind, readOne, partialUpdateOne, ret, throw.
  on_docs. rewrite Hnot. on_docs. reflexivity.
Qed.

End Single.

(** *** The author among the members *)

Lemma create_keeps_authors (a : ObjectId) (t description : string)
      (w : World CommunityDoc) :
  authors_are_members w ->
  authors_are_members (snd (create a t description w)).
Proof.
  intros Hinv.
  unfold create, assertCommunityNotExists, getCommunityByTitle,
    bind, readOne, createOne, ret, throw.
  destruct (find _ (docs w)); [exact Hinv|].
  unfold authors_are_members. cbn [snd docs].
  apply Forall_app. split; [exact Hinv|].
  constructor; [|constructor]. unfold author_in_members. simpl. now left.
Qed.

Lemma delete_keeps_authors (i : ObjectId) (w : World CommunityDoc) :
  authors_are_members w -> authors_are_members (snd (delete i w)).
Proof.
  intros Hinv. unfold delete, bind, deleteOne, ret, authors_are_members.
  cbn [snd docs]. now apply remove_first_Forall.
Qed.

Lemma join_keeps_authors (user i : ObjectId) (w : World CommunityDoc) :
  authors_are_members w -> authors_are_members (snd (join user i w)).
Proof.
  intros Hinv. unfold join, getCommunityByID, bind at 1, readOne.
  unfold bind at 1.
  pose proof (assertUserNotInCommunity_pure i user w) as Hpure.
  destruct (assertUserNotInCommunity i user w) as [[e|[]] w']; simpl in Hpure;
    subst w'; [exact Hinv|].
  unfold bind, partialUpdateOne, ret, authors_are_members. cbn [snd docs].
  apply update_first_Forall; [exact Hinv|].
  intros c Hc. rewrite Hc. unfold author_in_members. simpl.
  apply In_push.
  apply (proj1 (Forall_forall _ _) Hinv c).
  apply find_some in Hc. tauto.
Qed.

(** [leave] keeps the invariant when the community it is about has
    another author than the leaving user. *)
Lemma leave_keeps_authors (user i : ObjectId) (w : World CommunityDoc) :
  (forall c, fst (getCommunityByID i w) = inr (Some c) -> author (body c) <> user) ->
  authors_are_members w -> authors_are_members (snd (leave user i w)).
Proof.
  intros Hauthor Hinv. unfold leave, getCommunityByID, bind at 1, readOne.
  unfold bind at 1.
  pose proof (assertUserInCommunity_pure i user w) as Hpure.
  destruct (assertUserInCommunity i user w) as [[e|[]] w']; simpl in Hpure;
    subst w'; [exact Hinv|].
  unfold bind, partialUpdateOne, ret, authors_are_members. cbn [snd docs].
  apply update_first_Forall; [exact Hinv|].
  intros c Hc. rewrite Hc. unfold author_in_members. simpl.
  apply In_without. split.
  - apply (proj1 (Forall_forall _ _) Hinv c).
    apply find_some in Hc. tauto.
  - apply Hauthor. unfold getCommunityByID, readOne. simpl. now rewrite Hc.
Qed.

End CommunitingMembersFacts.

(** ** Communiting, as in [server/concepts/communiting.ts] *)

Module CommunitingFacts.
Import Communiting.

(** [create] never rejects and stores a community in every world, also
    one that holds the title already; the rejection of the dropped
    assertion stays unhandled. *)
Lemma create_always_stores (a : ObjectId) (t description : string)
      (w : World CommunityDoc) :
  exists r,
    create a t description w =
    (inr ("Community Succesfully Created!", r),
     mkWorld (docs w ++ [mkDoc (generated (issued w))
                               (mkCommunityDoc a t description [] [a])])
             (issued w + 1)
             (unhandled w ++ rejection_if (title_taken t w)
                               (NotAllowedError "Community already exists"))).
Proof.
  unfold create, assertCommunityNotExists, getCommunityByTitle, title_taken,
    rejection_if. run.
  destruct (existsb _ (docs w)) eqn:E.
  - apply existsb_true_find in E as [d ->]. simpl. eexists. reflexivity.
  - apply existsb_false_find in E. rewrite E. simpl.
    rewrite app_nil_r. eexists. reflexivity.
Qed.

(** The assertions only read. *)
Lemma assertUserInCommunity_only_reads (i u : ObjectId) (w : World CommunityDoc) :
  snd (assertUserInCommunity i u w) = w.
Proof.
  unfold assertUserInCommunity, getCommunityByID, bind, readOne, throw, ret.
  destruct (find _ (docs w)); [|reflexivity].
  now destruct (checkObjectIdInArray _ _).
Qed.

Lemma assertUserNotInCommunity_only_reads (i u : ObjectId) (w : World CommunityDoc) :
  snd (assertUserNotInCommunity i u w) = w.
Proof.
  unfold assertUserNotInCommunity, getCommunityByID, bind, readOne, throw, ret.
  destruct (find _ (docs w)); [|reflexivity].
  now destruct (checkObjectIdInArray _ _).
Qed.

Lemma assertItemInCommunity_only_reads (i x : ObjectId) (w : World CommunityDoc) :
  snd (assertItemInCommunity i x w) = w.
Proof.
  unfold assertItemInCommunity, getCommunityByID, bind, readOne, throw, ret.
  destruct (find _ (docs w)); [|reflexivity].
  now destruct (checkObjectIdInArray _ _).
Qed.

Lemma assertItemNotInCommunity_only_reads (i x : ObjectId) (w : World CommunityDoc) :
  snd (assertItemNotInCommunity i x w) = w.
Proof.
  unfold assertItemNotInCommunity, getCommunityByID, bind, readOne, throw, ret.
  destruct (find _ (docs w)); [|reflexivity].
  now destruct (checkObjectIdInArray _ _).
Qed.

(** [join] looks the user up as a community: where no community has the
    user's identifier, it rejects with [NotFoundError] and stores
    nothing. *)
Lemma join_rejects (user i : ObjectId) (w : World CommunityDoc) :
  (forall d, In d (docs w) -> _id d <> user) ->
  join user i w = (inl (doesnt_exist user), w).
Proof.
  intros Hno. apply find_id_absent, existsb_false_find in Hno.
  unfold join, assertUserNotInCommunity, getCommunityByID, bind, readOne, throw.
  rewrite Hno. reflexivity.
Qed.

(** *** The author among the members *)

Lemma create_preserves_authors (a : ObjectId) (t description : string)
      (w : World CommunityDoc) :
  authors_are_members w ->
  authors_are_members (snd (create a t description w)).
Proof.
  intros Hinv. destruct (create_always_stores a t description w) as [r ->].
  unfold authors_are_members. cbn [snd docs].
  apply Forall_app. split; [exact Hinv|].
  constructor; [|constructor]. unfold author_in_members. simpl. now left.
Qed.

Lemma delete_preserves_authors (i : ObjectId) (w : World CommunityDoc) :
  authors_are_members w -> authors_are_members (snd (delete i w)).
Proof.
  intros Hinv. unfold delete, bind, deleteOne, ret, authors_are_members.
  cbn [snd docs]. now apply remove_first_Forall.
Qed.

(** The four updating actions have one shape: read the community, run
    an assertion that only reads, patch the first match. *)
Ltac after_assertion call Hpure Hinv :=
  destruct call as [[?|[]] ?]; simpl in Hpure; subst; [exact Hinv|];
  unfold bind, partialUpdateOne, ret, authors_are_members; cbn [snd docs];
  apply update_first_Forall; [exact Hinv|].

Lemma join_preserves_authors (user i : ObjectId) (w : World CommunityDoc) :
  authors_are_members w -> authors_are_members (snd (join user i w)).
Proof.
  intros Hinv. unfold join, getCommunityByID, bind at 1, readOne.
  unfold bind at 1.
  pose proof (assertUserNotInCommunity_only_reads user i w) as Hpure.
  after_assertion (assertUserNotInCommunity user i w) Hpure Hinv.
  intros c Hc. rewrite Hc. unfold author_in_members. simpl.
  apply In_push.
  apply (proj1 (Forall_forall _ _) Hinv c).
  apply find_some in Hc. tauto.
Qed.

Lemma leave_preserves_authors (user i : ObjectId) (w : World CommunityDoc) :
  (forall c, fst (getCommunityByID i w) = inr (Some c) -> author (body c) <> user) ->
  authors_are_members w -> authors_are_members (snd (leave user i w)).
Proof.
  intros Hauthor Hinv. unfold leave, getCommunityByID, bind at 1, readOne.
  unfold bind at 1.
  pose proof (assertUserInCommunity_only_reads user i w) as Hpure.
  after_assertion (assertUserInCommunity user i w) Hpure Hinv.
  intros c Hc. rewrite Hc. unfold author_in_members. simpl.
  apply In_without. split.
  - apply (proj1 (Forall_forall _ _) Hinv c).
    apply find_some in Hc. tauto.
  - apply Hauthor. unfold getCommunityByID, readOne. simpl. now rewrite Hc.
Qed.

Lemma addItem_preserves_authors (x i : ObjectId) (w : World CommunityDoc) :
  authors_are_members w -> authors_are_members (snd (addItem x i w)).
Proof.
  intros Hinv. unfold addItem, getCommunityByID, bind at 1, readOne.
  unfold bind at 1.
  pose proof (assertItemNotInCommunity_only_reads x i w) as Hpure.
  after_assertion (assertItemNotInCommunity x i w) Hpure Hinv.
  intros c Hc. rewrite Hc. unfold author_in_members. simpl.
  apply (proj1 (Forall_forall _ _) Hinv c).
  apply find_some in Hc. tauto.
Qed.

Lemma deleteItem_preserves_authors (x i : ObjectId) (w : World CommunityDoc) :
  authors_are_members w -> authors_are_members (snd (deleteItem x i w)).
Proof.
  intros Hinv. unfold deleteItem, getCommunityByID, bind at 1, readOne.
  unfold bind at 1.
  pose proof (assertItemInCommunity_only_reads x i w) as Hpure.
  after_assertion (assertItemInCommunity x i w) Hpure Hinv.
  intros c Hc. rewrite Hc. unfold author_in_members. simpl.
  apply (proj1 (Forall_forall _ _) Hinv c).
  apply find_some in Hc. tauto.
Qed.

End CommunitingFacts.

(** ** Scenario of [unnamed/part_000]: create, join, leave, leave *)

Module ScenarioFacts.
Import CommunitingMembers CommunitingMembersFacts.

(** From a world without communities: the creator is the one member;
    another user joins and leaves; a second [leave] is rejected with a
    [NotFoundError] subclass and changes nothing. *)
Lemma join_leave_scenario (alice bob : ObjectId) (t description : string)
      (n : N) (u : list error) :
  alice <> bob ->
  let c := generated n in
  let w1 := snd (create alice t description (mkWorld [] n u)) in
  let w2 := snd (join bob c w1) in
  let w3 := snd (leave bob c w2) in
  fst (getNumMembers c w1) = inr 1%nat /\
  fst (join bob c w1) = inr "A user has joined the community!" /\
  fst (getNumMembers c w2) = inr 2%nat /\
  fst (leave bob c w2) = inr "A user has left the community!" /\
  fst (getNumMembers c w3) = inr 1%nat /\
  leave bob c w3 = (inl (CommunityUserNoMatchError bob c), w3) /\
  root_of (CommunityUserNoMatchError bob c) = NotFound.
Proof.
  intros Hne c w1 w2 w3.
  assert (Hba : equals bob alice = false) by (apply equals_neq; congruence).
  assert (Hab : String.eqb (toString alice) (toString bob) = false)
    by (apply (equals_neq alice bob); exact Hne).
  assert (Hbb : String.eqb (toString bob) (toString bob) = true)
    by apply String.eqb_refl.
  assert (H1 : w1 = single c alice t description [alice] (n + 1) u)
    by (unfold w1; now rewrite create_first).
  assert (H2 : join bob c w1 =
               (inr "A user has joined the community!",
                single c alice t description [alice; bob] (n + 1) u)).
  { rewrite H1, join_single; [reflexivity|]. simpl. now rewrite Hba. }
  assert (H3 : leave bob c w2 =
               (inr "A user has left the community!",
                single c alice t description [alice] (n + 1) u)).
  { unfold w2. rewrite H2. cbn [snd]. rewrite leave_single_member.
    - unfold without. simpl. now rewrite Hab, Hbb.
    - simpl. now rewrite Hba, equals_refl. }
  assert (H4 : w3 = single c alice t description [alice] (n + 1) u)
    by (unfold w3; now rewrite H3).
  repeat split.
  - now rewrite H1, getNumMembers_single.
  - now rewrite H2.
  - unfold w2. rewrite H2. cbn [snd]. now rewrite getNumMembers_single.
  - now rewrite H3.
  - now rewrite H4, getNumMembers_single.
  - rewrite H4. apply leave_single_stranger. simpl. now rewrite Hba.
Qed.

End ScenarioFacts.

(** ** Counting favorites *)

Lemma length_filter_count {D : Type} `{Schema D} (proj : Doc D -> ObjectId)
      (filter : object) (x : ObjectId) (l : list (Doc D)) :
  (forall d, matches filter d = equals (proj d) x) ->
  length (List.filter (matches filter) l)
  = count_occ ObjectId_eq_dec (map proj l) x.
Proof.
  intros Hm. induction l as [|d l IH]; [reflexivity|].
  cbn [List.filter map]. rewrite Hm.
  destruct (equals (proj d) x) eqn:E.
  - apply equals_eq in E. rewrite count_occ_cons_eq by exact E.
    cbn [length]. now rewrite IH.
  - apply equals_neq in E. rewrite count_occ_cons_neq by exact E. exact IH.
Qed.

Lemma append_empty (s : string) : s ++ "" = s.
Proof. induction s as [|c s IH]; simpl; [reflexivity | now rewrite IH]. Qed.

(* ================================================================== *)
(** * The claims                                                        *)
(* ================================================================== *)

Import Scenario.

(** C1. The guards of the presence toggles, run on worlds where they
    should reject.  Feeding: with the pair (feed, item) stored,
    [addItem(item, feed)] returns its success message and stores the pair
    a second time, where a [NotAllowed] rejection is due; the assertions
    filter on a [community] field that no feed document has, with the
    arguments in the opposite order ([FeedingFacts.addItem_always_stores]).
    [deleteItem] of an absent pair does reject with a [NotFound] error
    and changes nothing.  Featuring: [promote] of a featured item returns
    its success message and stores the item again, and [depromote] of an
    item that is not featured returns a success message; both assertions
    are called without [await] and test their argument [item] instead of
    the document read ([FeaturingFacts.promote_never_rejects],
    [FeaturingFacts.depromote_never_rejects]). *)
Theorem C1_guards_on_stored_pairs :
  let fed := snd (Feeding.addItem itemX hikersFeed (empty _)) in
  let shown := snd (Featuring.promote featuring itemX 15%float (empty _)) in
  (Feeding.present hikersFeed itemX fed = true /\
   fst (Feeding.addItem itemX hikersFeed fed)
     = inr "An item has been added to a feed!" /\
   map body (docs (snd (Feeding.addItem itemX hikersFeed fed)))
     = [Feeding.mkFeedDoc hikersFeed itemX; Feeding.mkFeedDoc hikersFeed itemX]) /\
  (Feeding.present hikersFeed itemX (empty _) = false /\
   Feeding.deleteItem itemX hikersFeed (empty _)
     = (inl (FeedItemNoMatchError hikersFeed itemX), empty _) /\
   root_of (FeedItemNoMatchError hikersFeed itemX) = NotFound) /\
  (Featuring.featured itemX shown = true /\
   fst (Featuring.promote featuring itemX 15%float shown)
     = inr "An item has been added to a feed!" /\
   map body (docs (snd (Featuring.promote featuring itemX 15%float shown)))
     = [Featuring.mkFeaturingDoc itemX; Featuring.mkFeaturingDoc itemX]) /\
  (Featuring.featured itemX (empty _) = false /\
   fst (Featuring.depromote featuring itemX 5%float (empty _))
     = inr "An item has been depromoted").
Proof. vm_compute. repeat split. Qed.

(** C2. A user favorites item X twice, then unfavorites it three times,
    from the empty collection.  The second [favorite] returns its success
    message and stores a second document for the pair; the
    [FavoriteItemExistsError] of the assertion, called without [await],
    stays an unhandled rejection.  The third [unfavorite], on a pair that
    is no longer stored, returns its success message as well.  In general
    [FavoritingFacts.favorite_always_stores] and
    [FavoritingFacts.unfavorite_never_rejects]: neither action ever
    rejects. *)
Theorem C2_second_favorite_is_stored :
  let w1 := snd (Favoriting.favorite alice itemX (empty _)) in
  let w2 := snd (Favoriting.favorite alice itemX w1) in
  let w3 := snd (Favoriting.unfavorite alice itemX w2) in
  let w4 := snd (Favoriting.unfavorite alice itemX w3) in
  Favoriting.present alice itemX w1 = true /\
  (exists favorite,
     fst (Favoriting.favorite alice itemX w1)
     = inr ("A user has favorited an item!", favorite)) /\
  map body (docs w2)
    = [Favoriting.mkFavoriteDoc alice itemX; Favoriting.mkFavoriteDoc alice itemX] /\
  unhandled w2 = [FavoriteItemExistsError alice itemX] /\
  Favoriting.present alice itemX w3 = true /\
  Favoriting.present alice itemX w4 = false /\
  fst (Favoriting.unfavorite alice itemX w4)
    = inr "A user has unfavorited an item!".
Proof.
  vm_compute. repeat split. eexists. reflexivity.
Qed.

(** C3. [create] of [server/concepts/communiting.ts] on a taken title:
    alice creates "Hikers", then bob creates "Hikers".  The second call
    returns the success message and stores a second community of that
    title; the [NotAllowedError] of [assertCommunityNotExists], called
    without [await], stays an unhandled rejection
    ([CommunitingFacts.create_always_stores] for every world).  The
    [create] of [unnamed/part_000] awaits the assertion and rejects
    ([CommunitingMembersFacts.create_rejects_taken_title]). *)
Theorem C3_create_with_taken_title :
  let w1 := snd (Communiting.create alice "Hikers" "desc" (empty _)) in
  let w2 := snd (Communiting.create bob "Hikers" "other" w1) in
  Communiting.title_taken "Hikers" w1 = true /\
  (exists community,
     fst (Communiting.create bob "Hikers" "other" w1)
     = inr ("Community Succesfully Created!", community)) /\
  map body (docs w2)
    = [Communiting.mkCommunityDoc alice "Hikers" "desc" [] [alice];
       Communiting.mkCommunityDoc bob "Hikers" "other" [] [bob]] /\
  unhandled w2 = [NotAllowedError "Community already exists"].
Proof.
  vm_compute. repeat split. eexists. reflexivity.
Qed.

(** The threshold of Featuring, as far as the answer of the action and
    the stored documents go.  For an item that is not featured,
    [promote] with [attention < minimumAttention] answers with the
    informational message and stores nothing, and with
    [attention >= minimumAttention] it stores the item as featured; for a
    featured item, [depromote] with [attention >= minimumAttention]
    answers with the informational message and changes nothing.  What
    [promote] leaves unhandled is stated apart, below. *)
Theorem threshold_answers_and_documents
        (this : Featuring.FeaturingConcept) (item : ObjectId)
        (low high still : float)
        (w shown : World Featuring.FeaturingDoc) :
  Featuring.featured item w = false ->
  Featuring.featured item shown = true ->
  Featuring.ltb low (Featuring.minimumAttention this) = true ->
  Featuring.geb high (Featuring.minimumAttention this) = true ->
  Featuring.geb still (Featuring.minimumAttention this) = true ->
  (fst (Featuring.promote this item low w)
     = inr "The item didn't meet the minimum attention." /\
   docs (snd (Featuring.promote this item low w)) = docs w /\
   Featuring.featured item (snd (Featuring.promote this item low w)) = false) /\
  (fst (Featuring.promote this item high w)
     = inr "An item has been added to a feed!" /\
   docs (snd (Featuring.promote this item high w))
     = (docs w ++ [mkDoc (generated (issued w)) (Featuring.mkFeaturingDoc item)])%list /\
   Featuring.featured item (snd (Featuring.promote this item high w)) = true) /\
  (Featuring.depromote this item still shown
     = (inr "The item still has the minimum attention.", shown)).
Proof.
  intros Hout Hin Hlow Hhigh Hstill.
  apply FeaturingFacts.ltb_geb_exclusive in Hlow.
  apply FeaturingFacts.geb_ltb_exclusive in Hstill.
  rewrite (FeaturingFacts.promote_below this item low w Hlow).
  rewrite (FeaturingFacts.promote_above this item high w Hhigh).
  rewrite (FeaturingFacts.depromote_above this item still shown Hstill).
  cbn [fst snd docs]. repeat split.
  - exact Hout.
  - rewrite FeaturingFacts.featured_app. cbn [body Featuring.item].
    rewrite equals_refl. apply orb_true_r.
Qed.

(** The same at scenario 4: threshold 10, an item that is not featured,
    attention 5 and 15 for [promote], then 20 for [depromote]. *)
Lemma threshold_answers_in_scenario :
  let shown := snd (Featuring.promote featuring itemX 15%float (empty _)) in
  (Featuring.featured itemX (empty _) = false /\
   Featuring.featured itemX shown = true /\
   Featuring.ltb 5%float (Featuring.minimumAttention featuring) = true /\
   Featuring.geb 15%float (Featuring.minimumAttention featuring) = true /\
   Featuring.geb 20%float (Featuring.minimumAttention featuring) = true) /\
  (fst (Featuring.promote featuring itemX 5%float (empty _))
     = inr "The item didn't meet the minimum attention." /\
   docs (snd (Featuring.promote featuring itemX 5%float (empty _))) = [] /\
   Featuring.featured itemX (snd (Featuring.promote featuring itemX 5%float (empty _)))
     = false) /\
  (fst (Featuring.promote featuring itemX 15%float (empty _))
     = inr "An item has been added to a feed!" /\
   docs (snd (Featuring.promote featuring itemX 15%float (empty _)))
     = ([] ++ [mkDoc (generated 0) (Featuring.mkFeaturingDoc itemX)])%list /\
   Featuring.featured itemX shown = true) /\
  (Featuring.depromote featuring itemX 20%float shown
     = (inr "The item still has the minimum attention.", shown)).
Proof.
  intros shown. split; [repeat split|].
  apply (threshold_answers_and_documents featuring itemX 5%float 15%float 20%float
           (empty _) shown); reflexivity.
Defined.

(** C4. What [promote] leaves behind.  [promote] calls
    [assertItemIsNotFeatured] without [await], and that assertion tests
    its argument [item], which is always truthy, instead of the document
    it reads: it rejects with the [NotAllowedError] "Item is already
    featured!" for every item, featured or not.  So every [promote], in
    every world, also one below the threshold of an item that is not
    featured, ends with that rejection unhandled, where the claim has a
    no-op success that is never an error.  The answer and the stored
    documents are those of the claim
    ([threshold_answers_and_documents]).  Last, scenario 4 in full:
    threshold 10, item X not featured, [promote] with 5, [promote] with
    15, then [depromote] with 20. *)
Theorem C4_promote_leaves_a_rejection
        (this : Featuring.FeaturingConcept) (item : ObjectId) (attention : float)
        (w : World Featuring.FeaturingDoc) :
  Featuring.assertItemIsNotFeatured item w
    = (inl (NotAllowedError "Item is already featured!"), w) /\
  unhandled (snd (Featuring.promote this item attention w))
    = (unhandled w ++ [NotAllowedError "Item is already featured!"])%list /\
  (Featuring.featured itemX (empty _) = false /\
   Featuring.promote featuring itemX 5%float (empty _)
     = (inr "The item didn't meet the minimum attention.",
        mkWorld [] 0 [NotAllowedError "Item is already featured!"]) /\
   Featuring.promote featuring itemX 15%float (empty _)
     = (inr "An item has been added to a feed!",
        mkWorld [mkDoc (generated 0) (Featuring.mkFeaturingDoc itemX)] 1
                [NotAllowedError "Item is already featured!"]) /\
   Featuring.depromote featuring itemX 20%float
     (snd (Featuring.promote featuring itemX 15%float (empty _)))
     = (inr "The item still has the minimum attention.",
        snd (Featuring.promote featuring itemX 15%float (empty _)))).
Proof.
  split; [reflexivity|]. split.
  - destruct (Featuring.geb attention (Featuring.minimumAttention this)) eqn:E.
    + now rewrite (FeaturingFacts.promote_above _ _ _ _ E).
    + now rewrite (FeaturingFacts.promote_below _ _ _ _ E).
  - vm_compute. repeat split.
Qed.

(** C5. The scenario on [server/concepts/communiting.ts]: alice creates
    a community, bob joins.  [join] hands [(user, _id)] to an assertion
    declared [(_id, user)], which looks for a community with bob's
    identifier, finds none and rejects with [NotFoundError]; bob is not
    added and [getNumMembers] stays 1, where the scenario has 2
    ([CommunitingFacts.join_rejects] for every world where the user's
    identifier is not a community's).  [leave] has the same call.  On
    [unnamed/part_000], which calls both assertions in their declared
    order, the scenario runs as written
    ([ScenarioFacts.join_leave_scenario]). *)
Theorem C5_join_looks_up_the_user :
  let c := generated 0 in
  let w1 := snd (Communiting.create alice "Hikers" "desc" (empty _)) in
  map _id (docs w1) = [c] /\
  Communiting.join bob c w1
    = (inl (NotFoundError "Community b0b000000000000000000002 doesn't exist!"), w1) /\
  fst (Communiting.getNumMembers c (snd (Communiting.join bob c w1))) = inr 1%nat /\
  Communiting.leave alice c w1
    = (inl (NotFoundError "Community a11ce0000000000000000001 doesn't exist!"), w1).
Proof. vm_compute. repeat split. Qed.

(** C6. The round trip on the feed relation: in every world,
    [addItem(item, feed)] followed by [deleteItem(item, feed)] ends with
    the rejection of [deleteItem] and with the added document still
    stored.  The favorite relation does make the round trip
    ([FavoritingFacts.favorite_unfavorite_roundtrip]). *)
Theorem C6_feed_roundtrip_keeps_the_item
        (item feed : ObjectId) (w : World Feeding.FeedDoc) :
  let added := snd (Feeding.addItem item feed w) in
  fst (Feeding.addItem item feed w) = inr "An item has been added to a feed!" /\
  Feeding.deleteItem item feed added
    = (inl (FeedItemNoMatchError feed item), added) /\
  docs added
    = (docs w ++ [mkDoc (generated (issued w)) (Feeding.mkFeedDoc feed item)])%list /\
  docs (snd (Feeding.deleteItem item feed added)) <> docs w.
Proof.
  intros added. unfold added.
  rewrite FeedingFacts.addItem_always_stores, FeedingFacts.deleteItem_always_rejects.
  cbn [fst snd docs]. repeat split.
  intros Heq. apply (f_equal (@length _)) in Heq.
  rewrite length_app in Heq. simpl in Heq. lia.
Qed.

(** C7, the claim as written, fails on [unnamed/part_000]: alice creates
    a community and leaves it; the community stays, with alice as author
    and without members. *)
Lemma C7_author_leaves :
  let c := generated 0 in
  let w1 := snd (CommunitingMembers.create alice "Hikers" "desc" (empty _)) in
  CommunitingMembers.authors_are_members w1 /\
  CommunitingMembers.leave alice c w1
    = (inr "A user has left the community!",
       CommunitingMembers.single c alice "Hikers" "desc" [] 1 []) /\
  ~ CommunitingMembers.authors_are_members
      (snd (CommunitingMembers.leave alice c w1)).
Proof.
  cbv zeta. split; [|split].
  - vm_compute. constructor; [now left | constructor].
  - vm_compute. reflexivity.
  - vm_compute. intros Hinv. inversion Hinv as [|? ? Hauthor _]. exact Hauthor.
Qed.

(** C7, amended.  Every Communiting action keeps the author of every
    stored community among its members, [leave(user, _id)] provided the
    community with that identifier has another author than [user]:
    [create] starts the members with the author, [join] and (in
    [communiting.ts]) [addItem] and [deleteItem] remove no member,
    [delete] removes a whole community, and [leave] removes the leaving
    user only.  The proviso is on [leave] alone; the other actions keep
    the invariant for every user, item and identifier.  So it is in
    [unnamed/part_000] and in [server/concepts/communiting.ts]. *)
Theorem C7_authors_stay_members
        (w : World CommunitingMembers.CommunityDoc)
        (v : World Communiting.CommunityDoc)
        (user leaver item removed cid : ObjectId) (title description : string) :
  CommunitingMembers.authors_are_members w ->
  Communiting.authors_are_members v ->
  (CommunitingMembers.authors_are_members
     (snd (CommunitingMembers.create user title description w)) /\
   CommunitingMembers.authors_are_members (snd (CommunitingMembers.delete cid w)) /\
   CommunitingMembers.authors_are_members (snd (CommunitingMembers.join user cid w)) /\
   ((forall c, fst (CommunitingMembers.getCommunityByID cid w) = inr (Some c) ->
               CommunitingMembers.author (body c) <> leaver) ->
    CommunitingMembers.authors_are_members
      (snd (CommunitingMembers.leave leaver cid w)))) /\
  (Communiting.authors_are_members
     (snd (Communiting.create user title description v)) /\
   Communiting.authors_are_members (snd (Communiting.delete cid v)) /\
   Communiting.authors_are_members (snd (Communiting.join user cid v)) /\
   ((forall c, fst (Communiting.getCommunityByID cid v) = inr (Some c) ->
               Communiting.author (body c) <> leaver) ->
    Communiting.authors_are_members (snd (Communiting.leave leaver cid v))) /\
   Communiting.authors_are_members (snd (Communiting.addItem item cid v)) /\
   Communiting.authors_are_members (snd (Communiting.deleteItem removed cid v))).
Proof.
  intros Hw Hv. split.
  - split; [|split; [|split]].
    + now apply CommunitingMembersFacts.create_keeps_authors.
    + now apply CommunitingMembersFacts.delete_keeps_authors.
    + now apply CommunitingMembersFacts.join_keeps_authors.
    + intros Hother. now apply CommunitingMembersFacts.leave_keeps_authors.
  - split; [|split; [|split; [|split; [|split]]]].
    + now apply CommunitingFacts.create_preserves_authors.
    + now apply CommunitingFacts.delete_preserves_authors.
    + now apply CommunitingFacts.join_preserves_authors.
    + intros Hother. now apply CommunitingFacts.leave_preserves_authors.
    + now apply CommunitingFacts.addItem_preserves_authors.
    + now apply CommunitingFacts.deleteItem_preserves_authors.
Qed.

(** C7, amended, on worlds where the calls go through.  In
    [unnamed/part_000]: alice's community with bob as member; item X
    joins as a user, bob leaves.  In [communiting.ts], where an action
    goes through only when its first argument is itself the identifier of
    a community: alice's community (0) with community 1 as member and as
    item; community 2 joins it and is added as item, community 1 leaves
    it and is deleted as item.  Neither leaver is the author, alice, and
    alice stays a member throughout. *)
Lemma C7_bob_leaves_alices_community :
  let g0 := generated 0 in
  let g1 := generated 1 in
  let g2 := generated 2 in
  let w := CommunitingMembers.single g0 alice "Hikers" "desc" [alice; bob] 1 [] in
  let v := mkWorld
             [mkDoc g0 (Communiting.mkCommunityDoc alice "Hikers" "desc" [g1] [alice; g1]);
              mkDoc g1 (Communiting.mkCommunityDoc bob "Bikers" "desc" [g0] [bob; g0]);
              mkDoc g2 (Communiting.mkCommunityDoc bob "Divers" "desc" [] [bob])]
             3 [] in
  (CommunitingMembers.authors_are_members w /\
   Communiting.authors_are_members v /\
   (forall c, fst (CommunitingMembers.getCommunityByID g0 w) = inr (Some c) ->
              CommunitingMembers.author (body c) <> bob) /\
   (forall c, fst (Communiting.getCommunityByID g0 v) = inr (Some c) ->
              Communiting.author (body c) <> g1)) /\
  (fst (CommunitingMembers.join itemX g0 w) = inr "A user has joined the community!" /\
   fst (CommunitingMembers.leave bob g0 w) = inr "A user has left the community!" /\
   fst (Communiting.join g2 g0 v) = inr "A user has joined the community!" /\
   fst (Communiting.leave g1 g0 v) = inr "A user has left the community!" /\
   fst (Communiting.addItem g2 g0 v) = inr "An item has been added to the community!" /\
   fst (Communiting.deleteItem g1 g0 v)
     = inr "An item has been deleted from the community!") /\
  (CommunitingMembers.authors_are_members
     (snd (CommunitingMembers.create itemX "Bikers" "other" w)) /\
   CommunitingMembers.authors_are_members (snd (CommunitingMembers.delete g0 w)) /\
   CommunitingMembers.authors_are_members (snd (CommunitingMembers.join itemX g0 w)) /\
   CommunitingMembers.authors_are_members (snd (CommunitingMembers.leave bob g0 w))) /\
  (Communiting.authors_are_members
     (snd (Communiting.create g2 "Bikers" "other" v)) /\
   Communiting.authors_are_members (snd (Communiting.delete g0 v)) /\
   Communiting.authors_are_members (snd (Communiting.join g2 g0 v)) /\
   Communiting.authors_are_members (snd (Communiting.leave g1 g0 v)) /\
   Communiting.authors_are_members (snd (Communiting.addItem g2 g0 v)) /\
   Communiting.authors_are_members (snd (Communiting.deleteItem g1 g0 v))).
Proof.
  cbv zeta.
  set (w := CommunitingMembers.single (generated 0) alice "Hikers" "desc" [alice; bob] 1 []).
  set (v := mkWorld _ 3 []).
  assert (Hw : CommunitingMembers.authors_are_members w)
    by (constructor; [now left | constructor]).
  assert (Hv : Communiting.authors_are_members v)
    by (repeat (constructor; [now left|]); constructor).
  assert (Hbob : forall c,
             fst (CommunitingMembers.getCommunityByID (generated 0) w) = inr (Some c) ->
             CommunitingMembers.author (body c) <> bob)
    by (intros c Hc; vm_compute in Hc; injection Hc as <-; discriminate).
  assert (Hg1 : forall c,
             fst (Communiting.getCommunityByID (generated 0) v) = inr (Some c) ->
             Communiting.author (body c) <> generated 1)
    by (intros c Hc; vm_compute in Hc; injection Hc as <-; vm_compute; discriminate).
  split; [repeat split; assumption|].
  split; [vm_compute; repeat split|].
  destruct (C7_authors_stay_members w v itemX bob (generated 2) (generated 1)
              (generated 0) "Bikers" "other" Hw Hv)
    as ((Hc & Hd & Hj & Hl) & _).
  destruct (C7_authors_stay_members w v (generated 2) (generated 1) (generated 2)
              (generated 1) (generated 0) "Bikers" "other" Hw Hv)
    as (_ & (Hc' & Hd' & Hj' & Hl' & Ha' & Hx')).
  split.
  - split; [exact Hc | split; [exact Hd | split; [exact Hj | exact (Hl Hbob)]]].
  - split; [exact Hc'|]. split; [exact Hd'|]. split; [exact Hj'|].
    split; [exact (Hl' Hg1)|]. split; [exact Ha' | exact Hx'].
Defined.

(** C8. A [CommunityAuthorNoMatchError] built from the raw user and
    community ids, passed through the resolver registered for its class:
    when the lookup of the raw user id gives a user, the answer is the
    error's template with that user's name at position 0 and the
    community id at position 1, whereas the error's own message has the
    raw user id at position 0. *)
Theorem C8_author_no_match_is_enriched
        (getUserById : ObjectId -> error + Responses.UserDoc)
        (author _id : ObjectId) (user : Responses.UserDoc) :
  getUserById author = inr user ->
  Responses.enrich getUserById (CommunityAuthorNoMatchError author _id)
    = inr (Responses.username user ++ " is not the author of community "
           ++ toString _id) /\
  Responses.enrich getUserById (CommunityAuthorNoMatchError author _id)
    = inr (Errors.formatWith (CommunityAuthorNoMatchError author _id)
             [Responses.username user; toString _id]) /\
  Errors.message (CommunityAuthorNoMatchError author _id)
    = toString author ++ " is not the author of community " ++ toString _id.
Proof.
  intros Hfound.
  unfold Responses.enrich, Responses.registered, Responses.with_username.
  rewrite Hfound.
  unfold Errors.message, Errors.formatWith, Errors.substitute. simpl.
  now rewrite append_empty.
Qed.

(** C8 for alice: the enriched message names her, the raw one shows her
    identifier. *)
Lemma C8_alice_is_named :
  users alice = inr (Responses.mkUserDoc "alice") /\
  Responses.enrich users (CommunityAuthorNoMatchError alice hikersFeed)
    = inr "alice is not the author of community feed00000000000000000004" /\
  Errors.message (CommunityAuthorNoMatchError alice hikersFeed)
    = "a11ce0000000000000000001 is not the author of community feed00000000000000000004".
Proof.
  split; [reflexivity|].
  destruct (C8_author_no_match_is_enriched users alice hikersFeed
              (Responses.mkUserDoc "alice") eq_refl) as (H1 & _ & H3).
  split; [exact H1 | exact H3].
Defined.

(** C9. [delete(_id)] never rejects, in either version of the concept:
    for every identifier it is the [deleteOne] call on the filter
    [{ _id }] followed by the message "Community Succesfully Deleted!";
    no existence check is made, an identifier that no community has
    leaves the world as it is, and a repeated call returns the same
    message. *)
Theorem C9_delete_never_rejects
        (cid absent : ObjectId)
        (w : World CommunitingMembers.CommunityDoc)
        (v : World Communiting.CommunityDoc) :
  (forall d, In d (docs w) -> _id d <> absent) ->
  (forall d, In d (docs v) -> _id d <> absent) ->
  (CommunitingMembers.delete cid w
     = (inr "Community Succesfully Deleted!", snd (deleteOne [("_id", VId cid)] w)) /\
   CommunitingMembers.delete absent w = (inr "Community Succesfully Deleted!", w) /\
   fst (CommunitingMembers.delete cid (snd (CommunitingMembers.delete cid w)))
     = inr "Community Succesfully Deleted!") /\
  (Communiting.delete cid v
     = (inr "Community Succesfully Deleted!", snd (deleteOne [("_id", VId cid)] v)) /\
   Communiting.delete absent v = (inr "Community Succesfully Deleted!", v) /\
   fst (Communiting.delete cid (snd (Communiting.delete cid v)))
     = inr "Community Succesfully Deleted!").
Proof.
  intros Hw Hv. split; (split; [reflexivity | split; [|reflexivity]]).
  - unfold CommunitingMembers.delete, bind, deleteOne, ret.
    rewrite remove_first_unmatched by now apply find_id_absent.
    now destruct w.
  - unfold Communiting.delete, bind, deleteOne, ret.
    rewrite remove_first_unmatched by now apply find_id_absent.
    now destruct v.
Qed.

(** C9 on a world with one community: deleting it, deleting under an
    identifier no community has, and deleting twice. *)
Lemma C9_delete_unknown_community :
  let c := generated 0 in
  let w := CommunitingMembers.single c alice "Hikers" "desc" [alice] 1 [] in
  let v := mkWorld
             [mkDoc c (Communiting.mkCommunityDoc alice "Hikers" "desc" [] [alice])]
             1 [] in
  ((forall d, In d (docs w) -> _id d <> bob) /\
   (forall d, In d (docs v) -> _id d <> bob)) /\
  (CommunitingMembers.delete c w
     = (inr "Community Succesfully Deleted!", mkWorld [] 1 []) /\
   CommunitingMembers.delete bob w = (inr "Community Succesfully Deleted!", w) /\
   fst (CommunitingMembers.delete c (snd (CommunitingMembers.delete c w)))
     = inr "Community Succesfully Deleted!") /\
  (Communiting.delete c v
     = (inr "Community Succesfully Deleted!", mkWorld [] 1 []) /\
   Communiting.delete bob v = (inr "Community Succesfully Deleted!", v) /\
   fst (Communiting.delete c (snd (Communiting.delete c v)))
     = inr "Community Succesfully Deleted!").
Proof.
  cbv zeta.
  assert (Hw : forall d,
             In d (docs (CommunitingMembers.single (generated 0) alice "Hikers"
                           "desc" [alice] 1 [])) -> _id d <> bob)
    by (intros d [<-|[]]; vm_compute; discriminate).
  assert (Hv : forall d,
             In d (docs (mkWorld
                           [mkDoc (generated 0)
                              (Communiting.mkCommunityDoc alice "Hikers" "desc" []
                                 [alice])] 1 [])) -> _id d <> bob)
    by (intros d [<-|[]]; vm_compute; discriminate).
  split; [split; assumption|].
  exact (C9_delete_never_rejects (generated 0) bob _ _ Hw Hv).
Defined.

(** C10. [getNumFavorites(item)] never rejects: in every world it
    returns the number of stored favorites whose [item] field is the
    given identifier, counted over all documents, and changes nothing; for
    an item that no user has favorited the number is 0. *)
Theorem C10_getNumFavorites_counts
        (item unloved : ObjectId) (w : World Favoriting.FavoriteDoc) :
  (forall d, In d (docs w) -> Favoriting.item (body d) <> unloved) ->
  Favoriting.getNumFavorites item w
    = (inr (count_occ ObjectId_eq_dec
              (map (fun d => Favoriting.item (body d)) (docs w)) item), w) /\
  Favoriting.getNumFavorites unloved w = (inr 0%nat, w).
Proof.
  intros Hnone.
  assert (Hcount : forall x,
             Favoriting.getNumFavorites x w
             = (inr (count_occ ObjectId_eq_dec
                       (map (fun d => Favoriting.item (body d)) (docs w)) x), w)).
  { intros x. unfold Favoriting.getNumFavorites, is_null, bind, readMany, ret.
    rewrite (length_filter_count (fun d => Favoriting.item (body d)) _ x);
      [reflexivity|].
    intros d. apply FavoritingFacts.favorite_matches_item. }
  split; [apply Hcount|].
  rewrite Hcount. do 2 f_equal.
  apply count_occ_not_In. intros Hin. apply in_map_iff in Hin as (d & Hd & Hind).
  now apply (Hnone d Hind).
Qed.

(** C10 on three favorites, two of them of item X, and on the empty
    collection. *)
Lemma C10_two_fans_and_none :
  let w := mkWorld
             [mkDoc (generated 0) (Favoriting.mkFavoriteDoc alice itemX);
              mkDoc (generated 1) (Favoriting.mkFavoriteDoc bob hikersFeed);
              mkDoc (generated 2) (Favoriting.mkFavoriteDoc bob itemX)]
             3 [] in
  (forall d, In d (docs w) -> Favoriting.item (body d) <> alice) /\
  Favoriting.getNumFavorites itemX w = (inr 2%nat, w) /\
  Favoriting.getNumFavorites alice w = (inr 0%nat, w) /\
  Favoriting.getNumFavorites itemX (empty _) = (inr 0%nat, empty _).
Proof.
  cbv zeta.
  assert (Hnone : forall d,
             In d (docs (mkWorld
                           [mkDoc (generated 0) (Favoriting.mkFavoriteDoc alice itemX);
                            mkDoc (generated 1) (Favoriting.mkFavoriteDoc bob hikersFeed);
                            mkDoc (generated 2) (Favoriting.mkFavoriteDoc bob itemX)]
                           3 [])) -> Favoriting.item (body d) <> alice)
    by (intros d [<-|[<-|[<-|[]]]]; vm_compute; discriminate).
  split; [exact Hnone|].
  destruct (C10_getNumFavorites_counts itemX alice _ Hnone) as [Hx Halice].
  split; [exact Hx | split; [exact Halice|]].
  apply (C10_getNumFavorites_counts itemX itemX (empty _)).
  intros d [].
Defined.

(* ================================================================== *)
(** * Further properties of the concepts                                *)
(* ================================================================== *)

(** ** Feeding: reading the feed, sequences of requests *)

Lemma matches_feed (f : ObjectId) (d : Doc Feeding.FeedDoc) :
  matches [("feed", VId f)] d = equals (Feeding.feed (body d)) f.
Proof. unfold matches, doc_field; simpl. now rewrite andb_true_r. Qed.

Lemma getItems_reads (feed : ObjectId) (w : World Feeding.FeedDoc) :
  Feeding.getItems feed w
  = (inr (List.filter (fun d => equals (Feeding.feed (body d)) feed) (docs w)), w).
Proof.
  unfold Feeding.getItems, readMany. do 2 f_equal.
  apply filter_ext. intros d. apply matches_feed.
Qed.

(** X1. [getItems(feed)] gives exactly the stored documents of that
    feed and changes nothing; after [addItem(item, feed)] it gives the
    same documents, each as often as before, and the new one, and the
    items of every other feed are the same as before.  Nothing is said
    of the order of an answer. *)
Theorem getItems_after_addItem
        (item feed other : ObjectId) (w : World Feeding.FeedDoc) :
  other <> feed ->
  let added := mkDoc (generated (issued w)) (Feeding.mkFeedDoc feed item) in
  let w' := snd (Feeding.addItem item feed w) in
  exists before after others_before others_after,
    Feeding.getItems feed w = (inr before, w) /\
    (forall d, In d before <-> In d (docs w) /\ Feeding.feed (body d) = feed) /\
    Feeding.getItems feed w' = (inr after, w') /\
    Permutation after (added :: before) /\
    Feeding.getItems other w = (inr others_before, w) /\
    Feeding.getItems other w' = (inr others_after, w') /\
    Permutation others_after others_before.
Proof.
  intros Hother added w'. unfold w'.
  rewrite FeedingFacts.addItem_always_stores. cbn [snd].
  rewrite !getItems_reads. cbn [docs].
  rewrite !filter_app. cbn [List.filter body Feeding.feed].
  rewrite equals_refl.
  assert (Hne : equals feed other = false) by (apply equals_neq; congruence).
  rewrite Hne, app_nil_r.
  do 4 eexists. split; [reflexivity|]. split; [|split; [reflexivity|]].
  - intros d. rewrite filter_In. now rewrite equals_eq.
  - split; [|split; [reflexivity | split; [reflexivity | apply Permutation_refl]]].
    apply Permutation_sym, Permutation_cons_append.
Qed.

(** X1 on the empty feed collection. *)
Lemma getItems_after_first_addItem :
  let added := mkDoc (generated 0) (Feeding.mkFeedDoc hikersFeed itemX) in
  let w' := snd (Feeding.addItem itemX hikersFeed (empty _)) in
  alice <> hikersFeed /\
  exists before after others_before others_after,
    Feeding.getItems hikersFeed (empty _) = (inr before, empty _) /\
    (forall d, In d before <->
               In d (docs (empty Feeding.FeedDoc)) /\ Feeding.feed (body d) = hikersFeed) /\
    Feeding.getItems hikersFeed w' = (inr after, w') /\
    Permutation after (added :: before) /\
    Feeding.getItems alice (empty _) = (inr others_before, empty _) /\
    Feeding.getItems alice w' = (inr others_after, w') /\
    Permutation others_after others_before.
Proof.
  cbv zeta.
  assert (Hne : alice <> hikersFeed) by discriminate.
  split; [exact Hne|].
  exact (getItems_after_addItem itemX hikersFeed alice (empty _) Hne).
Defined.

(** X2. Whatever sequence of [addItem] and [deleteItem] requests is
    served, no feed document is ever removed: the documents stored at
    the start are still there, in place, followed by one document per
    [addItem] request. *)
Theorem feed_only_grows (cs : list FeedCalls.call) (w : World Feeding.FeedDoc) :
  exists added,
    docs (FeedCalls.perform_all cs w) = (docs w ++ added)%list /\
    length added = length (List.filter FeedCalls.is_add cs).
Proof.
  revert w. induction cs as [|c cs IH]; intros w.
  - exists []. split; [now rewrite app_nil_r | reflexivity].
  - cbn [FeedCalls.perform_all]. destruct c as [item feed | item feed];
      cbn [FeedCalls.perform List.filter FeedCalls.is_add].
    + rewrite FeedingFacts.addItem_always_stores. cbn [snd].
      destruct (IH (mkWorld
                      (docs w ++ [mkDoc (generated (issued w))
                                        (Feeding.mkFeedDoc feed item)])
                      (issued w + 1) (unhandled w))) as (added & Hdocs & Hlen).
      cbn [docs] in Hdocs.
      exists (mkDoc (generated (issued w)) (Feeding.mkFeedDoc feed item) :: added).
      split.
      * rewrite Hdocs, <- app_assoc. reflexivity.
      * cbn [length]. now rewrite Hlen.
    + rewrite FeedingFacts.deleteItem_always_rejects. cbn [snd]. apply IH.
Qed.

(** ** Favoriting: counts and lists across the actions *)

Lemma getNumFavorites_is_count (x : ObjectId) (w : World Favoriting.FavoriteDoc) :
  Favoriting.getNumFavorites x w
  = (inr (count_occ ObjectId_eq_dec
            (map (fun d => Favoriting.item (body d)) (docs w)) x), w).
Proof.
  unfold Favoriting.getNumFavorites, is_null, bind, readMany, ret.
  rewrite (length_filter_count (fun d => Favoriting.item (body d)) _ x);
    [reflexivity|].
  intros d. apply FavoritingFacts.favorite_matches_item.
Qed.

Section RemoveFirstFacts.
Context {D : Type} `{Schema D}.

Lemma remove_first_count (filter : object) (proj : Doc D -> ObjectId)
      (x : ObjectId) (l : list (Doc D)) :
  (forall d, matches filter d = true -> proj d = x) ->
  existsb (matches filter) l = true ->
  count_occ ObjectId_eq_dec (map proj l) x
  = S (count_occ ObjectId_eq_dec (map proj (remove_first filter l)) x).
Proof.
  intros Hproj. induction l as [|d l IH]; cbn [existsb remove_first map];
    [discriminate|].
  destruct (matches filter d) eqn:Hd.
  - intros _. now rewrite count_occ_cons_eq by now apply Hproj.
  - cbn [orb]. intros Hl. cbn [map].
    destruct (ObjectId_eq_dec (proj d) x) as [Heq|Hne].
    + rewrite !count_occ_cons_eq by exact Heq. now rewrite IH.
    + rewrite !count_occ_cons_neq by exact Hne. now apply IH.
Qed.

Lemma remove_first_length (filter : object) (l : list (Doc D)) :
  existsb (matches filter) l = true ->
  length l = S (length (remove_first filter l)).
Proof.
  induction l as [|d l IH]; cbn [existsb remove_first]; [discriminate|].
  destruct (matches filter d); [reflexivity|].
  cbn [orb length]. intros Hl. now rewrite IH.
Qed.

End RemoveFirstFacts.

(** X3. After [favorite(user, item)], in whatever world, [getNumFavorites]
    of that item is one more than before, and that of every other item
    is as before. *)
Theorem favorite_adds_one
        (user item other : ObjectId) (w : World Favoriting.FavoriteDoc) :
  other <> item ->
  exists n,
    fst (Favoriting.getNumFavorites item w) = inr n /\
    fst (Favoriting.getNumFavorites item (snd (Favoriting.favorite user item w)))
      = inr (S n) /\
    fst (Favoriting.getNumFavorites other (snd (Favoriting.favorite user item w)))
      = fst (Favoriting.getNumFavorites other w).
Proof.
  intros Hother.
  destruct (FavoritingFacts.favorite_always_stores user item w) as [r ->].
  cbn [snd]. rewrite !getNumFavorites_is_count. cbn [fst docs].
  eexists. split; [reflexivity|].
  rewrite !map_app, !count_occ_app. cbn [map body Favoriting.item].
  rewrite count_occ_cons_eq by reflexivity.
  rewrite count_occ_cons_neq by congruence.
  cbn [count_occ]. split; f_equal; lia.
Qed.

(** X3 when alice favorites item X as the first favorite at all. *)
Lemma favorite_adds_one_to_none :
  hikersFeed <> itemX /\
  fst (Favoriting.getNumFavorites itemX (empty _)) = inr 0%nat /\
  fst (Favoriting.getNumFavorites itemX
         (snd (Favoriting.favorite alice itemX (empty _)))) = inr 1%nat /\
  fst (Favoriting.getNumFavorites hikersFeed
         (snd (Favoriting.favorite alice itemX (empty _)))) = inr 0%nat.
Proof.
  assert (Hne : hikersFeed <> itemX) by discriminate.
  split; [exact Hne|].
  destruct (favorite_adds_one alice itemX hikersFeed (empty _) Hne)
    as (n & H0 & H1 & H2).
  vm_compute in H0. injection H0 as <-.
  split; [reflexivity | split; [exact H1 | exact H2]].
Defined.

Lemma present_after_favorite (u x : ObjectId) (l : list (Doc Favoriting.FavoriteDoc))
      (i : ObjectId) (n : N) (e : list error) :
  Favoriting.present u x
    (mkWorld (l ++ [mkDoc i (Favoriting.mkFavoriteDoc u x)]) n e) = true.
Proof.
  unfold Favoriting.present. cbn [docs]. rewrite existsb_app. cbn [existsb].
  rewrite FavoritingFacts.matches_pair. cbn [body Favoriting.user Favoriting.item].
  rewrite !equals_refl. cbn. now rewrite orb_true_r.
Qed.

(** X4. For a pair that is not stored, [favorite] followed by
    [unfavorite] leaves the world as it was but for the count of
    generated identifiers: the same documents, and no unhandled
    rejection added by either dropped assertion. *)
Theorem favorite_then_unfavorite_restores
        (user item : ObjectId) (w : World Favoriting.FavoriteDoc) :
  Favoriting.present user item w = false ->
  snd (Favoriting.unfavorite user item (snd (Favoriting.favorite user item w)))
  = mkWorld (docs w) (issued w + 1) (unhandled w).
Proof.
  intros Habs.
  destruct (FavoritingFacts.favorite_always_stores user item w) as [r ->].
  rewrite FavoritingFacts.unfavorite_never_rejects. cbn [snd docs issued unhandled].
  rewrite present_after_favorite, Habs. cbn [negb rejection_if].
  rewrite !app_nil_r. f_equal.
  apply remove_first_appended; [exact Habs|].
  rewrite FavoritingFacts.matches_pair. cbn. now rewrite !equals_refl.
Qed.

(** X4 when bob has favorited item X and alice favorites and unfavorites
    it. *)
Lemma alice_favorite_roundtrip :
  let w := mkWorld [mkDoc (generated 0) (Favoriting.mkFavoriteDoc bob itemX)] 1 [] in
  Favoriting.present alice itemX w = false /\
  snd (Favoriting.unfavorite alice itemX (snd (Favoriting.favorite alice itemX w)))
  = mkWorld (docs w) 2 [].
Proof.
  cbv zeta. split; [reflexivity|].
  exact (favorite_then_unfavorite_restores alice itemX
           (mkWorld [mkDoc (generated 0) (Favoriting.mkFavoriteDoc bob itemX)] 1 [])
           eq_refl).
Defined.

(** X5. [unfavorite(user, item)] of a stored pair removes exactly one
    document: the collection is one document shorter and
    [getNumFavorites(item)] is one less than before. *)
Theorem unfavorite_removes_one
        (user item : ObjectId) (w : World Favoriting.FavoriteDoc) :
  Favoriting.present user item w = true ->
  exists n,
    fst (Favoriting.getNumFavorites item
           (snd (Favoriting.unfavorite user item w))) = inr n /\
    fst (Favoriting.getNumFavorites item w) = inr (S n) /\
    length (docs w) = S (length (docs (snd (Favoriting.unfavorite user item w)))).
Proof.
  intros Hpres. rewrite FavoritingFacts.unfavorite_never_rejects. cbn [snd].
  rewrite !getNumFavorites_is_count. cbn [fst docs].
  eexists. split; [reflexivity|]. split.
  - f_equal.
    apply (remove_first_count _ (fun d => Favoriting.item (body d)));
      [|exact Hpres].
    intros d Hd. rewrite FavoritingFacts.matches_pair in Hd.
    apply andb_true_iff in Hd as [_ Hd]. now apply equals_eq.
  - now apply remove_first_length.
Qed.

(** X5 when alice has favorited item X twice: one of the two documents
    goes. *)
Lemma unfavorite_removes_one_of_two :
  let w := snd (Favoriting.favorite alice itemX
                  (snd (Favoriting.favorite alice itemX (empty _)))) in
  Favoriting.present alice itemX w = true /\
  fst (Favoriting.getNumFavorites itemX (snd (Favoriting.unfavorite alice itemX w)))
    = inr 1%nat /\
  fst (Favoriting.getNumFavorites itemX w) = inr 2%nat.
Proof.
  cbv zeta.
  destruct (unfavorite_removes_one alice itemX
              (snd (Favoriting.favorite alice itemX
                      (snd (Favoriting.favorite alice itemX (empty _)))))
              eq_refl) as (n & Hafter & Hbefore & _).
  split; [reflexivity|].
  vm_compute in Hbefore. injection Hbefore as <-.
  split; [exact Hafter | reflexivity].
Defined.

(** X6. [unfavorite(user, item)] of a pair that is not stored returns the
    success message and leaves every document in place; the
    [FavoriteItemNoMatchError] of the dropped assertion is an unhandled
    rejection, not the result. *)
Theorem unfavorite_absent_pair
        (user item : ObjectId) (w : World Favoriting.FavoriteDoc) :
  Favoriting.present user item w = false ->
  Favoriting.unfavorite user item w
  = (inr "A user has unfavorited an item!",
     mkWorld (docs w) (issued w)
             (unhandled w ++ [FavoriteItemNoMatchError user item])).
Proof.
  intros Habs. rewrite FavoritingFacts.unfavorite_never_rejects, Habs.
  cbn [negb rejection_if].
  now rewrite (remove_first_unmatched _ _ Habs).
Qed.

(** X6 on bob's only favorite: alice unfavorites the same item. *)
Lemma unfavorite_absent_pair_of_alice :
  let w := mkWorld [mkDoc (generated 0) (Favoriting.mkFavoriteDoc bob itemX)] 1 [] in
  Favoriting.present alice itemX w = false /\
  Favoriting.unfavorite alice itemX w
  = (inr "A user has unfavorited an item!",
     mkWorld (docs w) 1 [FavoriteItemNoMatchError alice itemX]).
Proof.
  cbv zeta. split; [reflexivity|].
  exact (unfavorite_absent_pair alice itemX
           (mkWorld [mkDoc (generated 0) (Favoriting.mkFavoriteDoc bob itemX)] 1 [])
           eq_refl).
Defined.

Lemma matches_user (u : ObjectId) (d : Doc Favoriting.FavoriteDoc) :
  matches [("user", VId u)] d = equals (Favoriting.user (body d)) u.
Proof. unfold matches, doc_field; simpl. now rewrite andb_true_r. Qed.

(** X7. [getFavorites(user)] gives exactly the stored favorites of that
    user and changes nothing; after [favorite(user, item)] it gives the
    same documents, each as often as before, and the new one, and the
    favorites of every other user are the same as before.  Nothing is
    said of the order of an answer. *)
Theorem getFavorites_after_favorite
        (user item other : ObjectId) (w : World Favoriting.FavoriteDoc) :
  other <> user ->
  let added := mkDoc (generated (issued w)) (Favoriting.mkFavoriteDoc user item) in
  let w' := snd (Favoriting.favorite user item w) in
  exists before after others_before others_after,
    Favoriting.getFavorites user w = (inr before, w) /\
    (forall d, In d before <-> In d (docs w) /\ Favoriting.user (body d) = user) /\
    Favoriting.getFavorites user w' = (inr after, w') /\
    Permutation after (added :: before) /\
    Favoriting.getFavorites other w = (inr others_before, w) /\
    Favoriting.getFavorites other w' = (inr others_after, w') /\
    Permutation others_after others_before.
Proof.
  intros Hother added w'. unfold w'.
  destruct (FavoritingFacts.favorite_always_stores user item w) as [r ->].
  cbn [snd].
  assert (Hreads : forall u v,
             Favoriting.getFavorites u v
             = (inr (List.filter (fun d => equals (Favoriting.user (body d)) u)
                       (docs v)), v)).
  { intros u v. unfold Favoriting.getFavorites, bind, readMany, ret.
    do 2 f_equal. apply filter_ext. intros d. apply matches_user. }
  rewrite !Hreads. cbn [docs].
  rewrite !filter_app. cbn [List.filter body Favoriting.user].
  rewrite equals_refl.
  assert (Hne : equals user other = false) by (apply equals_neq; congruence).
  rewrite Hne, app_nil_r.
  do 4 eexists. split; [reflexivity|]. split; [|split; [reflexivity|]].
  - intros d. rewrite filter_In. now rewrite equals_eq.
  - split; [|split; [reflexivity | split; [reflexivity | apply Permutation_refl]]].
    apply Permutation_sym, Permutation_cons_append.
Qed.

(** X7 for alice's first favorite. *)
Lemma getFavorites_after_first_favorite :
  let added := mkDoc (generated 0) (Favoriting.mkFavoriteDoc alice itemX) in
  let w' := snd (Favoriting.favorite alice itemX (empty _)) in
  bob <> alice /\
  exists before after others_before others_after,
    Favoriting.getFavorites alice (empty _) = (inr before, empty _) /\
    (forall d, In d before <->
               In d (docs (empty Favoriting.FavoriteDoc))
               /\ Favoriting.user (body d) = alice) /\
    Favoriting.getFavorites alice w' = (inr after, w') /\
    Permutation after (added :: before) /\
    Favoriting.getFavorites bob (empty _) = (inr others_before, empty _) /\
    Favoriting.getFavorites bob w' = (inr others_after, w') /\
    Permutation others_after others_before.
Proof.
  cbv zeta.
  assert (Hne : bob <> alice) by discriminate.
  split; [exact Hne|].
  exact (getFavorites_after_favorite alice itemX bob (empty _) Hne).
Defined.

(** ** Featuring: NaN, the round trip, what the actions never do *)

Lemma SFcompare_self (s : spec_float) :
  s <> S754_nan -> SFcompare s s = Some Eq.
Proof.
  destruct s as [b|b| |b m e]; intros Hs; simpl.
  - reflexivity.
  - now destruct b.
  - contradiction.
  - rewrite Z.compare_refl.
    change (Pos.compare_cont Eq m m) with (m ?= m)%positive.
    rewrite Pos.compare_refl. now destruct b.
Qed.

Lemma is_nan_Prim2SF (a : float) :
  PrimFloat.is_nan a = true -> Prim2SF a = S754_nan.
Proof.
  unfold PrimFloat.is_nan. rewrite eqb_spec. unfold SFeqb. intros Hnan.
  destruct (Prim2SF a) as [b|b| |b m e] eqn:E; [| |reflexivity|];
    rewrite SFcompare_self in Hnan by discriminate; discriminate.
Qed.

Lemma SFcompare_nan_r (s : spec_float) : SFcompare s S754_nan = None.
Proof. now destruct s. Qed.

Lemma comparisons_with_nan (a m : float) :
  PrimFloat.is_nan a = true \/ PrimFloat.is_nan m = true ->
  Featuring.geb a m = false /\ Featuring.ltb a m = false.
Proof.
  unfold Featuring.geb, Featuring.ltb. rewrite leb_spec, ltb_spec.
  unfold SFleb, SFltb.
  intros [Hnan|Hnan]; apply is_nan_Prim2SF in Hnan; rewrite Hnan;
    rewrite ?SFcompare_nan_r; split; reflexivity.
Qed.

(** X8. When the attention or the threshold is NaN, both comparisons
    are false: [promote] stores nothing and answers that the minimum was
    not met, and [depromote] removes nothing and answers that the item
    still has the minimum. *)
Theorem featuring_with_nan
        (this : Featuring.FeaturingConcept) (item : ObjectId) (attention : float)
        (w : World Featuring.FeaturingDoc) :
  PrimFloat.is_nan attention = true
  \/ PrimFloat.is_nan (Featuring.minimumAttention this) = true ->
  fst (Featuring.promote this item attention w)
    = inr "The item didn't meet the minimum attention." /\
  docs (snd (Featuring.promote this item attention w)) = docs w /\
  Featuring.depromote this item attention w
    = (inr "The item still has the minimum attention.", w).
Proof.
  intros Hnan. apply comparisons_with_nan in Hnan as [Hge Hlt].
  rewrite (FeaturingFacts.promote_below _ _ _ _ Hge).
  rewrite (FeaturingFacts.depromote_above _ _ _ _ Hlt).
  repeat split.
Qed.

(** X8 with the attention NaN against the threshold 10, on a featured
    item. *)
Lemma featuring_with_nan_attention :
  let w := snd (Featuring.promote featuring itemX 15%float (empty _)) in
  PrimFloat.is_nan nan = true /\
  fst (Featuring.promote featuring itemX nan w)
    = inr "The item didn't meet the minimum attention." /\
  docs (snd (Featuring.promote featuring itemX nan w)) = docs w /\
  Featuring.depromote featuring itemX nan w
    = (inr "The item still has the minimum attention.", w).
Proof.
  cbv zeta. split; [reflexivity|].
  exact (featuring_with_nan featuring itemX nan
           (snd (Featuring.promote featuring itemX 15%float (empty _)))
           (or_introl eq_refl)).
Defined.

(** X9. For an item that is not featured, [promote] at or above the
    threshold followed by [depromote] below it gives back the stored
    documents as they were; what stays is the count of generated
    identifiers and the unhandled rejection of [promote]'s dropped
    assertion. *)
Theorem promote_then_depromote_restores
        (this : Featuring.FeaturingConcept) (item : ObjectId) (high low : float)
        (w : World Featuring.FeaturingDoc) :
  Featuring.featured item w = false ->
  Featuring.geb high (Featuring.minimumAttention this) = true ->
  Featuring.ltb low (Featuring.minimumAttention this) = true ->
  Featuring.depromote this item low (snd (Featuring.promote this item high w))
  = (inr "An item has been depromoted",
     mkWorld (docs w) (issued w + 1)
             (unhandled w ++ [NotAllowedError "Item is already featured!"])).
Proof.
  intros Hout Hhigh Hlow.
  rewrite (FeaturingFacts.promote_above _ _ _ _ Hhigh). cbn [snd].
  rewrite (FeaturingFacts.depromote_below _ _ _ _ Hlow).
  cbn [docs issued unhandled]. do 2 f_equal.
  apply remove_first_appended; [exact Hout|].
  rewrite FeaturingFacts.feature_matches_item. apply equals_refl.
Qed.

(** X9 on the empty collection: attention 15, then 5, threshold 10. *)
Lemma promote_then_depromote_on_empty :
  (Featuring.featured itemX (empty _) = false /\
   Featuring.geb 15%float (Featuring.minimumAttention featuring) = true /\
   Featuring.ltb 5%float (Featuring.minimumAttention featuring) = true) /\
  Featuring.depromote featuring itemX 5%float
    (snd (Featuring.promote featuring itemX 15%float (empty _)))
  = (inr "An item has been depromoted",
     mkWorld [] 1 [NotAllowedError "Item is already featured!"]).
Proof.
  split; [repeat split|].
  exact (promote_then_depromote_restores featuring itemX 15%float 5%float
           (empty _) eq_refl eq_refl eq_refl).
Defined.


(** ** Communiting as in [unnamed/part_000]: the general world *)

Lemma find_none_existsb {A} (f : A -> bool) (l : list A) :
  find f l = None -> existsb f l = false.
Proof.
  induction l as [|x l IH]; simpl; [easy|].
  destruct (f x); [discriminate | exact IH].
Qed.

Lemma NoDup_snoc {A} (l : list A) (x : A) :
  NoDup l -> ~ In x l -> NoDup (l ++ [x]).
Proof.
  induction l as [|y l IH]; simpl; intros Hl Hx.
  - constructor; [easy | constructor].
  - inversion Hl as [|? ? Hy Hl']; subst. constructor.
    + rewrite in_app_iff. simpl. intros [Hin|[->|[]]]; tauto.
    + apply IH; tauto.
Qed.



Lemma without_shorter (x : ObjectId) (arr : list ObjectId) :
  In x arr -> (length (without x arr) < length arr)%nat.
Proof.
  induction arr as [|y arr IH]; simpl; [tauto|].
  change (String.eqb (toString y) (toString x)) with (equals y x).
  pose proof (filter_length_le
                (fun e => negb (String.eqb (toString e) (toString x))) arr) as Hle.
  destruct (equals y x) eqn:E; simpl.
  - intros _. unfold without. lia.
  - intros [->|Hin]; [rewrite equals_refl in E; discriminate|].
    apply IH in Hin. lia.
Qed.

Section IdentityFilter.
Context {D : Type} `{Schema D}.

Lemma matches_id_patch (i : ObjectId) (update : object) (d : Doc D) :
  matches [("_id", VId i)] (patch update d) = matches [("_id", VId i)] d.
Proof. now rewrite !matches_id. Qed.

(** Looking a document up by identity after [update_first] on the same
    identity gives the patched document. *)
Lemma find_update_first_id (i : ObjectId) (update : object) (l : list (Doc D)) :
  find (matches [("_id", VId i)]) (update_first [("_id", VId i)] update l)
  = option_map (patch update) (find (matches [("_id", VId i)]) l).
Proof.
  induction l as [|d l IH]; cbn [update_first find]; [reflexivity|].
  destruct (matches [("_id", VId i)] d) eqn:E; cbn [find].
  - now rewrite matches_id_patch, E.
  - now rewrite E.
Qed.


Lemma find_id_absent_iff (i : ObjectId) (l : list (Doc D)) :
  find (matches [("_id", VId i)]) l = None <-> ~ In i (map _id l).
Proof.
  induction l as [|d l IH]; cbn [find map In]; [tauto|].
  rewrite matches_id. destruct (equals (_id d) i) eqn:E.
  - apply equals_eq in E. split; [discriminate | tauto].
  - apply equals_neq in E. rewrite IH. tauto.
Qed.

Lemma find_app_unmatched (f : Doc D -> bool) (l : list (Doc D)) (d : Doc D) :
  existsb f l = false -> find f (l ++ [d]) = find f [d].
Proof.
  induction l as [|x l IH]; simpl; [easy|].
  destruct (f x); simpl; [discriminate | exact IH].
Qed.

Lemma In_remove_first (filter : object) (l : list (Doc D)) (d : Doc D) :
  In d (remove_first filter l) -> In d l.
Proof.
  induction l as [|x l IH]; cbn [remove_first]; [easy|].
  destruct (matches filter x); simpl; [tauto|].
  intros [->|Hin]; [now left | right; now apply IH].
Qed.

End IdentityFilter.

Module CommunitingMembersWorld.
Import CommunitingMembers.

Lemma patch_members (c : Doc CommunityDoc) (ms : list ObjectId) :
  patch [("members", VIds ms)] c
  = mkDoc (_id c)
          (mkCommunityDoc (author (body c)) (title (body c)) (description (body c)) ms).
Proof. reflexivity. Qed.

Lemma join_runs (user i : ObjectId) (w : World CommunityDoc) (c : Doc CommunityDoc) :
  find (matches [("_id", VId i)]) (docs w) = Some c ->
  checkObjectIdInArray user (members (body c)) = false ->
  join user i w
  = (inr "A user has joined the community!",
     mkWorld (update_first [("_id", VId i)]
                [("members", VIds (push (members (body c)) user))] (docs w))
             (issued w) (unhandled w)).
Proof.
  intros Hfind Hcheck.
  unfold join, assertUserNotInCommunity, getCommunityByID, bind, readOne,
    partialUpdateOne, ret, throw.
  rewrite Hfind. cbn [option_map array_or_undefined]. now rewrite Hcheck.
Qed.

Lemma join_member (user i : ObjectId) (w : World CommunityDoc) (c : Doc CommunityDoc) :
  find (matches [("_id", VId i)]) (docs w) = Some c ->
  checkObjectIdInArray user (members (body c)) = true ->
  join user i w = (inl (CommunityMemberExistsError user i), w).
Proof.
  intros Hfind Hcheck.
  unfold join, assertUserNotInCommunity, getCommunityByID, bind, readOne, throw.
  rewrite Hfind. now rewrite Hcheck.
Qed.

Lemma join_unknown (user i : ObjectId) (w : World CommunityDoc) :
  find (matches [("_id", VId i)]) (docs w) = None ->
  join user i w = (inl (doesnt_exist i), w).
Proof.
  intros Hfind.
  unfold join, assertUserNotInCommunity, getCommunityByID, bind, readOne, throw.
  now rewrite Hfind.
Qed.

Lemma leave_runs (user i : ObjectId) (w : World CommunityDoc) (c : Doc CommunityDoc) :
  find (matches [("_id", VId i)]) (docs w) = Some c ->
  checkObjectIdInArray user (members (body c)) = true ->
  leave user i w
  = (inr "A user has left the community!",
     mkWorld (update_first [("_id", VId i)]
                [("members", VIds (without user (members (body c))))] (docs w))
             (issued w) (unhandled w)).
Proof.
  intros Hfind Hcheck.
  unfold leave, assertUserInCommunity, getCommunityByID, bind, readOne,
    partialUpdateOne, ret, throw.
  rewrite Hfind. cbn [option_map array_or_undefined]. now rewrite Hcheck.
Qed.

Lemma leave_stranger (user i : ObjectId) (w : World CommunityDoc) (c : Doc CommunityDoc) :
  find (matches [("_id", VId i)]) (docs w) = Some c ->
  checkObjectIdInArray user (members (body c)) = false ->
  leave user i w = (inl (CommunityUserNoMatchError user i), w).
Proof.
  intros Hfind Hcheck.
  unfold leave, assertUserInCommunity, getCommunityByID, bind, readOne, throw.
  rewrite Hfind. now rewrite Hcheck.
Qed.

Lemma leave_unknown (user i : ObjectId) (w : World CommunityDoc) :
  find (matches [("_id", VId i)]) (docs w) = None ->
  leave user i w = (inl (doesnt_exist i), w).
Proof.
  intros Hfind.
  unfold leave, assertUserInCommunity, getCommunityByID, bind, readOne, throw.
  now rewrite Hfind.
Qed.

Lemma getNumMembers_found (i : ObjectId) (w : World CommunityDoc) (c : Doc CommunityDoc) :
  find (matches [("_id", VId i)]) (docs w) = Some c ->
  getNumMembers i w = (inr (length (members (body c))), w).
Proof.
  intros Hfind. unfold getNumMembers, getCommunityByID, bind, readOne, ret.
  now rewrite Hfind.
Qed.

Lemma found_is_find (i : ObjectId) (w : World CommunityDoc) (c : option (Doc CommunityDoc)) :
  fst (getCommunityByID i w) = inr c ->
  find (matches [("_id", VId i)]) (docs w) = c.
Proof. unfold getCommunityByID, readOne. cbn [fst]. congruence. Qed.

End CommunitingMembersWorld.

(** X11. [assertAuthorIsUser(_id, user)], the same in both versions of
    the concept, never writes and decides three ways: it returns when the
    community stored under [_id] has [user] as author, rejects with the
    [NotFoundError] naming [_id] when no community is stored under it,
    and rejects with [CommunityAuthorNoMatchError] (a [NotAllowed]
    error) carrying [user] and [_id] when the author is someone else. *)
Theorem assertAuthorIsUser_decides
        (cid user : ObjectId)
        (w : World CommunitingMembers.CommunityDoc)
        (v : World Communiting.CommunityDoc) :
  (snd (CommunitingMembers.assertAuthorIsUser cid user w) = w /\
   (fst (CommunitingMembers.assertAuthorIsUser cid user w) = inr tt <->
    exists c, fst (CommunitingMembers.getCommunityByID cid w) = inr (Some c) /\
              CommunitingMembers.author (body c) = user) /\
   (fst (CommunitingMembers.assertAuthorIsUser cid user w)
      = inl (CommunitingMembers.doesnt_exist cid) <->
    fst (CommunitingMembers.getCommunityByID cid w) = inr None) /\
   (fst (CommunitingMembers.assertAuthorIsUser cid user w)
      = inl (CommunityAuthorNoMatchError user cid) <->
    exists c, fst (CommunitingMembers.getCommunityByID cid w) = inr (Some c) /\
              CommunitingMembers.author (body c) <> user)) /\
  (snd (Communiting.assertAuthorIsUser cid user v) = v /\
   (fst (Communiting.assertAuthorIsUser cid user v) = inr tt <->
    exists c, fst (Communiting.getCommunityByID cid v) = inr (Some c) /\
              Communiting.author (body c) = user) /\
   (fst (Communiting.assertAuthorIsUser cid user v)
      = inl (Communiting.doesnt_exist cid) <->
    fst (Communiting.getCommunityByID cid v) = inr None) /\
   (fst (Communiting.assertAuthorIsUser cid user v)
      = inl (CommunityAuthorNoMatchError user cid) <->
    exists c, fst (Communiting.getCommunityByID cid v) = inr (Some c) /\
              Communiting.author (body c) <> user)).
Proof.
  split.
  - unfold CommunitingMembers.assertAuthorIsUser, CommunitingMembers.getCommunityByID,
      CommunitingMembers.doesnt_exist, bind, readOne, throw, ret.
    destruct (find _ (docs w)) as [c|]; cbn [fst snd].
    + change (String.eqb (toString (CommunitingMembers.author (body c))) (toString user))
        with (equals (CommunitingMembers.author (body c)) user).
      destruct (equals (CommunitingMembers.author (body c)) user) eqn:E; cbn [negb fst snd].
      * apply equals_eq in E. repeat split; try discriminate.
        -- intros _. now exists c.
        -- intros (c' & Hc' & Hne). injection Hc' as <-. contradiction.
      * apply equals_neq in E. repeat split; try discriminate.
        -- intros (c' & Hc' & Heq). injection Hc' as <-. contradiction.
        -- intros _. now exists c.
    + repeat split; try discriminate.
      * intros (c' & Hc' & _). discriminate.
      * intros (c' & Hc' & _). discriminate.
  - unfold Communiting.assertAuthorIsUser, Communiting.getCommunityByID,
      Communiting.doesnt_exist, bind, readOne, throw, ret.
    destruct (find _ (docs v)) as [c|]; cbn [fst snd].
    + change (String.eqb (toString (Communiting.author (body c))) (toString user))
        with (equals (Communiting.author (body c)) user).
      destruct (equals (Communiting.author (body c)) user) eqn:E; cbn [negb fst snd].
      * apply equals_eq in E. repeat split; try discriminate.
        -- intros _. now exists c.
        -- intros (c' & Hc' & Hne). injection Hc' as <-. contradiction.
      * apply equals_neq in E. repeat split; try discriminate.
        -- intros (c' & Hc' & Heq). injection Hc' as <-. contradiction.
        -- intros _. now exists c.
    + repeat split; try discriminate.
      * intros (c' & Hc' & _). discriminate.
      * intros (c' & Hc' & _). discriminate.
Qed.

(** X12. [assertCommunityExists(_id)] of [unnamed/part_000] never
    writes; it returns exactly when a stored community has the
    identifier, and otherwise rejects with the [NotFoundError]
    "Community doesn't exist!". *)
Theorem assertCommunityExists_decides
        (cid : ObjectId) (w : World CommunitingMembers.CommunityDoc) :
  snd (CommunitingMembers.assertCommunityExists cid w) = w /\
  (fst (CommunitingMembers.assertCommunityExists cid w) = inr tt <->
   In cid (community_ids w)) /\
  (fst (CommunitingMembers.assertCommunityExists cid w)
     = inl (NotFoundError "Community doesn't exist!") <->
   ~ In cid (community_ids w)).
Proof.
  unfold community_ids.
  pose proof (find_id_absent_iff cid (docs w)) as Habsent.
  unfold CommunitingMembers.assertCommunityExists, CommunitingMembers.getCommunityByID,
    bind, readOne, throw, ret.
  destruct (find _ (docs w)) as [c|]; cbn [fst snd].
  - assert (Hin : In cid (map _id (docs w))).
    { destruct (in_dec ObjectId_eq_dec cid (map _id (docs w))) as [Hin|Hout];
        [exact Hin|].
      apply Habsent in Hout. discriminate. }
    repeat split; try discriminate; tauto.
  - assert (Hout : ~ In cid (map _id (docs w))) by now apply Habsent.
    repeat split; try discriminate; tauto.
Qed.

(** X13. [join(user, _id)] of [unnamed/part_000] on a stored community
    that [user] is not a member of: it succeeds, [getNumMembers] is then
    one more than the members before, [user] passes
    [assertUserInCommunity], and a second [join] rejects with
    [CommunityMemberExistsError] (a [NotAllowed] error) and changes
    nothing. *)
Theorem join_adds_member
        (user cid : ObjectId) (w : World CommunitingMembers.CommunityDoc)
        (c : Doc CommunitingMembers.CommunityDoc) :
  fst (CommunitingMembers.getCommunityByID cid w) = inr (Some c) ->
  checkObjectIdInArray user (CommunitingMembers.members (body c)) = false ->
  let w' := snd (CommunitingMembers.join user cid w) in
  fst (CommunitingMembers.join user cid w) = inr "A user has joined the community!" /\
  fst (CommunitingMembers.getNumMembers cid w')
    = inr (S (length (CommunitingMembers.members (body c)))) /\
  fst (CommunitingMembers.assertUserInCommunity cid user w') = inr tt /\
  CommunitingMembers.join user cid w' = (inl (CommunityMemberExistsError user cid), w') /\
  root_of (CommunityMemberExistsError user cid) = NotAllowed.
Proof.
  intros Hfound Hcheck w'. apply CommunitingMembersWorld.found_is_find in Hfound.
  unfold w'. rewrite (CommunitingMembersWorld.join_runs _ _ _ _ Hfound Hcheck).
  cbn [fst snd].
  set (w1 := mkWorld _ _ _).
  assert (Hfind1 : find (matches [("_id", VId cid)]) (docs w1)
                   = Some (patch [("members",
                                   VIds (push (CommunitingMembers.members (body c)) user))] c)).
  { unfold w1. cbn [docs]. now rewrite find_update_first_id, Hfound. }
  assert (Hin : checkObjectIdInArray user
                  (push (CommunitingMembers.members (body c)) user) = true).
  { apply checkObjectIdInArray_In. unfold push. apply in_or_app. right. now left. }
  split; [reflexivity|]. split; [|split; [|split; [|reflexivity]]].
  - rewrite (CommunitingMembersWorld.getNumMembers_found _ _ _ Hfind1).
    rewrite CommunitingMembersWorld.patch_members. cbn [fst body CommunitingMembers.members].
    unfold push. rewrite length_app. cbn [length]. f_equal. lia.
  - unfold CommunitingMembers.assertUserInCommunity, CommunitingMembers.getCommunityByID,
      bind, readOne, throw, ret.
    rewrite Hfind1, CommunitingMembersWorld.patch_members.
    cbn [body CommunitingMembers.members]. now rewrite Hin.
  - apply (CommunitingMembersWorld.join_member _ _ _ _ Hfind1).
    rewrite CommunitingMembersWorld.patch_members.
    cbn [body CommunitingMembers.members]. exact Hin.
Qed.

(** X13 when bob joins the community alice has created. *)
Lemma bob_joins_once :
  let c0 := mkDoc (generated 0)
                  (CommunitingMembers.mkCommunityDoc alice "Hikers" "desc" [alice]) in
  let w := mkWorld [c0] 1 [] in
  let w' := snd (CommunitingMembers.join bob (generated 0) w) in
  (fst (CommunitingMembers.getCommunityByID (generated 0) w) = inr (Some c0) /\
   checkObjectIdInArray bob [alice] = false) /\
  fst (CommunitingMembers.join bob (generated 0) w)
    = inr "A user has joined the community!" /\
  fst (CommunitingMembers.getNumMembers (generated 0) w') = inr 2%nat /\
  fst (CommunitingMembers.assertUserInCommunity (generated 0) bob w') = inr tt /\
  CommunitingMembers.join bob (generated 0) w'
    = (inl (CommunityMemberExistsError bob (generated 0)), w') /\
  root_of (CommunityMemberExistsError bob (generated 0)) = NotAllowed.
Proof.
  cbv zeta. split; [split; reflexivity|].
  exact (join_adds_member bob (generated 0)
           (mkWorld [mkDoc (generated 0)
                       (CommunitingMembers.mkCommunityDoc alice "Hikers" "desc" [alice])]
                    1 [])
           _ eq_refl eq_refl).
Defined.

(** X14. In [unnamed/part_000], under an identifier that no stored
    community has, [join], [leave] and [getNumMembers] all reject with
    the [NotFoundError] naming the identifier, and nothing is written. *)
Theorem unknown_community_is_not_found
        (user cid : ObjectId) (w : World CommunitingMembers.CommunityDoc) :
  ~ In cid (community_ids w) ->
  CommunitingMembers.join user cid w = (inl (CommunitingMembers.doesnt_exist cid), w) /\
  CommunitingMembers.leave user cid w = (inl (CommunitingMembers.doesnt_exist cid), w) /\
  CommunitingMembers.getNumMembers cid w
    = (inl (CommunitingMembers.doesnt_exist cid), w) /\
  CommunitingMembers.doesnt_exist cid
    = NotFoundError ("Community " ++ toString cid ++ " doesn't exist!").
Proof.
  intros Hout. apply find_id_absent_iff in Hout.
  split; [now apply CommunitingMembersWorld.join_unknown|].
  split; [now apply CommunitingMembersWorld.leave_unknown|].
  split; [|reflexivity].
  unfold CommunitingMembers.getNumMembers, CommunitingMembers.getCommunityByID,
    bind, readOne, throw.
  now rewrite Hout.
Qed.

(** X14 on the empty collection. *)
Lemma unknown_community_on_empty :
  ~ In hikersFeed (community_ids (empty _)) /\
  CommunitingMembers.join bob hikersFeed (empty _)
    = (inl (NotFoundError "Community feed00000000000000000004 doesn't exist!"), empty _) /\
  CommunitingMembers.leave bob hikersFeed (empty _)
    = (inl (NotFoundError "Community feed00000000000000000004 doesn't exist!"), empty _) /\
  CommunitingMembers.getNumMembers hikersFeed (empty _)
    = (inl (NotFoundError "Community feed00000000000000000004 doesn't exist!"), empty _).
Proof.
  assert (Hout : ~ In hikersFeed (community_ids (empty CommunitingMembers.CommunityDoc)))
    by (intros []).
  split; [exact Hout|].
  destruct (unknown_community_is_not_found bob hikersFeed (empty _) Hout)
    as (Hj & Hl & Hn & _).
  split; [exact Hj | split; [exact Hl | exact Hn]].
Defined.

(** X15. [leave(user, _id)] of [unnamed/part_000] on a stored community
    that [user] is a member of: it succeeds, [user] then passes
    [assertUserNotInCommunity], [getNumMembers] is less than before, and
    a second [leave] rejects with [CommunityUserNoMatchError] (a
    [NotFound] error) and changes nothing. *)
Theorem leave_removes_member
        (user cid : ObjectId) (w : World CommunitingMembers.CommunityDoc)
        (c : Doc CommunitingMembers.CommunityDoc) :
  fst (CommunitingMembers.getCommunityByID cid w) = inr (Some c) ->
  checkObjectIdInArray user (CommunitingMembers.members (body c)) = true ->
  let w' := snd (CommunitingMembers.leave user cid w) in
  fst (CommunitingMembers.leave user cid w) = inr "A user has left the community!" /\
  (exists n, fst (CommunitingMembers.getNumMembers cid w') = inr n /\
             (n < length (CommunitingMembers.members (body c)))%nat) /\
  fst (CommunitingMembers.assertUserNotInCommunity cid user w') = inr tt /\
  CommunitingMembers.leave user cid w' = (inl (CommunityUserNoMatchError user cid), w') /\
  root_of (CommunityUserNoMatchError user cid) = NotFound.
Proof.
  intros Hfound Hcheck w'. apply CommunitingMembersWorld.found_is_find in Hfound.
  unfold w'. rewrite (CommunitingMembersWorld.leave_runs _ _ _ _ Hfound Hcheck).
  cbn [fst snd].
  set (w1 := mkWorld _ _ _).
  assert (Hfind1 : find (matches [("_id", VId cid)]) (docs w1)
                   = Some (patch [("members",
                                   VIds (without user (CommunitingMembers.members (body c))))] c)).
  { unfold w1. cbn [docs]. now rewrite find_update_first_id, Hfound. }
  assert (Hout : checkObjectIdInArray user
                   (without user (CommunitingMembers.members (body c))) = false).
  { destruct (checkObjectIdInArray user (without user _)) eqn:E; [|reflexivity].
    apply checkObjectIdInArray_In, In_without in E. tauto. }
  split; [reflexivity|]. split; [|split; [|split; [|reflexivity]]].
  - rewrite (CommunitingMembersWorld.getNumMembers_found _ _ _ Hfind1).
    rewrite CommunitingMembersWorld.patch_members. cbn [fst body CommunitingMembers.members].
    eexists. split; [reflexivity|].
    apply without_shorter. now apply checkObjectIdInArray_In.
  - unfold CommunitingMembers.assertUserNotInCommunity, CommunitingMembers.getCommunityByID,
      bind, readOne, throw, ret.
    rewrite Hfind1, CommunitingMembersWorld.patch_members.
    cbn [body CommunitingMembers.members]. now rewrite Hout.
  - apply (CommunitingMembersWorld.leave_stranger _ _ _ _ Hfind1).
    rewrite CommunitingMembersWorld.patch_members.
    cbn [body CommunitingMembers.members]. exact Hout.
Qed.

(** X15 when bob leaves the community of alice and bob. *)
Lemma bob_leaves_once :
  let c0 := mkDoc (generated 0)
                  (CommunitingMembers.mkCommunityDoc alice "Hikers" "desc" [alice; bob]) in
  let w := mkWorld [c0] 1 [] in
  let w' := snd (CommunitingMembers.leave bob (generated 0) w) in
  (fst (CommunitingMembers.getCommunityByID (generated 0) w) = inr (Some c0) /\
   checkObjectIdInArray bob [alice; bob] = true) /\
  fst (CommunitingMembers.leave bob (generated 0) w)
    = inr "A user has left the community!" /\
  (exists n, fst (CommunitingMembers.getNumMembers (generated 0) w') = inr n /\
             (n < 2)%nat) /\
  fst (CommunitingMembers.assertUserNotInCommunity (generated 0) bob w') = inr tt /\
  CommunitingMembers.leave bob (generated 0) w'
    = (inl (CommunityUserNoMatchError bob (generated 0)), w') /\
  root_of (CommunityUserNoMatchError bob (generated 0)) = NotFound.
Proof.
  cbv zeta. split; [split; reflexivity|].
  exact (leave_removes_member bob (generated 0)
           (mkWorld [mkDoc (generated 0)
                       (CommunitingMembers.mkCommunityDoc alice "Hikers" "desc"
                          [alice; bob])]
                    1 [])
           _ eq_refl eq_refl).
Defined.

Module CommunitingMembersInvariants.
Import CommunitingMembers.

(** Every outcome of [join]: unchanged, or the members of the found
    community extended by a user who was not among them. *)
Lemma join_outcomes (user i : ObjectId) (w : World CommunityDoc) :
  snd (join user i w) = w \/
  exists c,
    find (matches [("_id", VId i)]) (docs w) = Some c /\
    checkObjectIdInArray user (members (body c)) = false /\
    snd (join user i w)
    = mkWorld (update_first [("_id", VId i)]
                 [("members", VIds (push (members (body c)) user))] (docs w))
              (issued w) (unhandled w).
Proof.
  destruct (find (matches [("_id", VId i)]) (docs w)) as [c|] eqn:Hfind.
  - destruct (checkObjectIdInArray user (members (body c))) eqn:Hcheck.
    + left. now rewrite (CommunitingMembersWorld.join_member _ _ _ _ Hfind Hcheck).
    + right. exists c. rewrite (CommunitingMembersWorld.join_runs _ _ _ _ Hfind Hcheck).
      now repeat split.
  - left. now rewrite (CommunitingMembersWorld.join_unknown _ _ _ Hfind).
Qed.

Lemma leave_outcomes (user i : ObjectId) (w : World CommunityDoc) :
  snd (leave user i w) = w \/
  exists c,
    find (matches [("_id", VId i)]) (docs w) = Some c /\
    checkObjectIdInArray user (members (body c)) = true /\
    snd (leave user i w)
    = mkWorld (update_first [("_id", VId i)]
                 [("members", VIds (without user (members (body c))))] (docs w))
              (issued w) (unhandled w).
Proof.
  destruct (find (matches [("_id", VId i)]) (docs w)) as [c|] eqn:Hfind.
  - destruct (checkObjectIdInArray user (members (body c))) eqn:Hcheck.
    + right. exists c. rewrite (CommunitingMembersWorld.leave_runs _ _ _ _ Hfind Hcheck).
      now repeat split.
    + left. now rewrite (CommunitingMembersWorld.leave_stranger _ _ _ _ Hfind Hcheck).
  - left. now rewrite (CommunitingMembersWorld.leave_unknown _ _ _ Hfind).
Qed.

Lemma create_outcomes (a : ObjectId) (t description : string) (w : World CommunityDoc) :
  (title_taken t w = true /\
   create a t description w = (inl (NotAllowedError "Community already exists!"), w)) \/
  (title_taken t w = false /\
   snd (create a t description w)
   = mkWorld (docs w ++ [mkDoc (generated (issued w))
                               (mkCommunityDoc a t description [a])])
             (issued w + 1) (unhandled w)).
Proof.
  unfold title_taken, create, assertCommunityNotExists, getCommunityByTitle,
    bind, readOne, createOne, throw, ret.
  destruct (existsb _ (docs w)) eqn:E.
  - left. apply existsb_true_find in E as [d ->]. now split.
  - right. apply existsb_false_find in E. rewrite E. now split.
Qed.

Lemma titles_update_first (filter : object) (v : value) (l : list (Doc CommunityDoc)) :
  map (fun d => title (body d)) (update_first filter [("members", v)] l)
  = map (fun d => title (body d)) l.
Proof.
  induction l as [|d l IH]; cbn [update_first map]; [reflexivity|].
  destruct (matches filter d); cbn [map].
  - f_equal. now destruct v.
  - now rewrite IH.
Qed.

Lemma NoDup_titles_remove_first (filter : object) (l : list (Doc CommunityDoc)) :
  NoDup (map (fun d => title (body d)) l) ->
  NoDup (map (fun d => title (body d)) (remove_first filter l)).
Proof.
  induction l as [|d l IH]; cbn [remove_first map]; intros Hl; [constructor|].
  inversion Hl as [|? ? Hd Hl']; subst.
  destruct (matches filter d); [exact Hl'|].
  cbn [map]. constructor; [|now apply IH].
  intros Hin. apply Hd. apply in_map_iff in Hin as (x & Hx & Hin).
  apply in_map_iff. exists x. split; [exact Hx|].
  now apply (In_remove_first filter).
Qed.

Lemma title_free (t : string) (w : World CommunityDoc) :
  title_taken t w = false -> ~ In t (titles w).
Proof.
  unfold title_taken, titles. intros Hfree Hin.
  apply in_map_iff in Hin as (d & Hd & Hin).
  assert (Htaken : existsb (matches [("title", VStr t)]) (docs w) = true).
  { apply existsb_exists. exists d. split; [exact Hin|].
    rewrite CommunitingMembersFacts.matches_title. now apply String.eqb_eq. }
  congruence.
Qed.

End CommunitingMembersInvariants.

(** X16. In [unnamed/part_000] no action puts an identifier twice among
    the members of a community: when the members of every stored
    community are distinct, they are so after [create], [delete], [join]
    and [leave], whatever the arguments. *)
Theorem members_stay_distinct
        (user cid : ObjectId) (title description : string)
        (w : World CommunitingMembers.CommunityDoc) :
  members_distinct w ->
  members_distinct (snd (CommunitingMembers.create user title description w)) /\
  members_distinct (snd (CommunitingMembers.delete cid w)) /\
  members_distinct (snd (CommunitingMembers.join user cid w)) /\
  members_distinct (snd (CommunitingMembers.leave user cid w)).
Proof.
  intros Hinv. unfold members_distinct in *. repeat split.
  - destruct (CommunitingMembersInvariants.create_outcomes user title description w)
      as [[_ ->]|[_ ->]]; [exact Hinv|].
    cbn [docs]. apply Forall_app. split; [exact Hinv|].
    constructor; [|constructor]. cbn. constructor; [easy | constructor].
  - unfold CommunitingMembers.delete, bind, deleteOne, ret. cbn [snd docs].
    now apply remove_first_Forall.
  - destruct (CommunitingMembersInvariants.join_outcomes user cid w)
      as [->|(c & Hfind & Hcheck & ->)]; [exact Hinv|].
    cbn [docs]. apply update_first_Forall; [exact Hinv|].
    intros c' Hc'. rewrite Hfind in Hc'. injection Hc' as <-.
    rewrite CommunitingMembersWorld.patch_members. cbn [body CommunitingMembers.members].
    apply NoDup_snoc.
    + apply (proj1 (Forall_forall _ _) Hinv c). apply find_some in Hfind. tauto.
    + intros Hin. apply checkObjectIdInArray_In in Hin. congruence.
  - destruct (CommunitingMembersInvariants.leave_outcomes user cid w)
      as [->|(c & Hfind & Hcheck & ->)]; [exact Hinv|].
    cbn [docs]. apply update_first_Forall; [exact Hinv|].
    intros c' Hc'. rewrite Hfind in Hc'. injection Hc' as <-.
    rewrite CommunitingMembersWorld.patch_members. cbn [body CommunitingMembers.members].
    apply NoDup_filter.
    apply (proj1 (Forall_forall _ _) Hinv c). apply find_some in Hfind. tauto.
Qed.

(** X16 on the community of alice and bob. *)
Lemma members_stay_distinct_for_two :
  let w := CommunitingMembers.single (generated 0) alice "Hikers" "desc" [alice; bob] 1 [] in
  members_distinct w /\
  members_distinct (snd (CommunitingMembers.create itemX "Bikers" "other" w)) /\
  members_distinct (snd (CommunitingMembers.delete (generated 0) w)) /\
  members_distinct (snd (CommunitingMembers.join itemX (generated 0) w)) /\
  members_distinct (snd (CommunitingMembers.leave itemX (generated 0) w)).
Proof.
  cbv zeta.
  assert (Hw : members_distinct
                 (CommunitingMembers.single (generated 0) alice "Hikers" "desc"
                    [alice; bob] 1 [])).
  { constructor; [|constructor]. cbn.
    constructor; [intros [H|[]]; discriminate|].
    constructor; [easy | constructor]. }
  split; [exact Hw|].
  exact (members_stay_distinct itemX (generated 0) "Bikers" "other" _ Hw).
Defined.

(** X17. In [unnamed/part_000] the titles stay unique: when no two
    stored communities share a title, none do after [create], [delete],
    [join] or [leave]; [join] and [leave] leave the titles as they are. *)
Theorem titles_stay_unique
        (user cid : ObjectId) (title description : string)
        (w : World CommunitingMembers.CommunityDoc) :
  NoDup (titles w) ->
  NoDup (titles (snd (CommunitingMembers.create user title description w))) /\
  NoDup (titles (snd (CommunitingMembers.delete cid w))) /\
  titles (snd (CommunitingMembers.join user cid w)) = titles w /\
  titles (snd (CommunitingMembers.leave user cid w)) = titles w.
Proof.
  intros Hinv. repeat split.
  - destruct (CommunitingMembersInvariants.create_outcomes user title description w)
      as [[_ ->]|[Hfree ->]]; [exact Hinv|].
    unfold titles. cbn [snd docs]. rewrite map_app. cbn [map body CommunitingMembers.title].
    apply NoDup_snoc; [exact Hinv|].
    now apply CommunitingMembersInvariants.title_free.
  - unfold CommunitingMembers.delete, bind, deleteOne, ret, titles. cbn [snd docs].
    now apply CommunitingMembersInvariants.NoDup_titles_remove_first.
  - destruct (CommunitingMembersInvariants.join_outcomes user cid w)
      as [->|(c & _ & _ & ->)]; [reflexivity|].
    unfold titles. cbn [docs].
    apply CommunitingMembersInvariants.titles_update_first.
  - destruct (CommunitingMembersInvariants.leave_outcomes user cid w)
      as [->|(c & _ & _ & ->)]; [reflexivity|].
    unfold titles. cbn [docs].
    apply CommunitingMembersInvariants.titles_update_first.
Qed.

(** X17 on one community: a second "Hikers" is refused, "Bikers" is
    added. *)
Lemma titles_stay_unique_for_hikers :
  let w := CommunitingMembers.single (generated 0) alice "Hikers" "desc" [alice] 1 [] in
  NoDup (titles w) /\
  titles (snd (CommunitingMembers.create bob "Hikers" "other" w)) = ["Hikers"] /\
  titles (snd (CommunitingMembers.create bob "Bikers" "other" w)) = ["Hikers"; "Bikers"] /\
  NoDup (titles (snd (CommunitingMembers.create bob "Bikers" "other" w))) /\
  titles (snd (CommunitingMembers.join bob (generated 0) w)) = titles w.
Proof.
  cbv zeta.
  assert (Hw : NoDup (titles (CommunitingMembers.single (generated 0) alice "Hikers"
                                "desc" [alice] 1 [])))
    by (cbn; constructor; [easy | constructor]).
  split; [exact Hw|]. split; [reflexivity|]. split; [reflexivity|].
  destruct (titles_stay_unique bob (generated 0) "Bikers" "other" _ Hw)
    as (Hc & _ & Hj & _).
  split; [exact Hc | exact Hj].
Defined.



(** X19. [create(author, title, description)] of [unnamed/part_000] on
    a title that no stored community has, when the generated identifier
    is not yet in use: it stores one community after the others, with the
    author as its only member, returns that community with the success
    message, and [getNumMembers] of the new identifier is 1. *)
Theorem create_on_free_title
        (author : ObjectId) (title description : string)
        (w : World CommunitingMembers.CommunityDoc) :
  CommunitingMembers.title_taken title w = false ->
  ~ In (generated (issued w)) (community_ids w) ->
  let created := mkDoc (generated (issued w))
                       (CommunitingMembers.mkCommunityDoc author title description [author]) in
  let w' := mkWorld (docs w ++ [created]) (issued w + 1) (unhandled w) in
  CommunitingMembers.create author title description w
    = (inr ("Community Succesfully Created!", Some created), w') /\
  fst (CommunitingMembers.getNumMembers (generated (issued w)) w') = inr 1%nat /\
  fst (CommunitingMembers.assertAuthorIsUser (generated (issued w)) author w') = inr tt.
Proof.
  intros Hfree Hfresh created w'.
  assert (Hfind : find (matches [("_id", VId (generated (issued w)))]) (docs w')
                  = Some created).
  { unfold w'. cbn [docs].
    rewrite find_app_unmatched
      by (apply find_none_existsb; now apply find_id_absent_iff).
    cbn [find]. rewrite matches_id. cbn [_id]. now rewrite equals_refl. }
  split; [|split].
  - unfold CommunitingMembers.title_taken in Hfree. apply existsb_false_find in Hfree.
    unfold CommunitingMembers.create, CommunitingMembers.assertCommunityNotExists,
      CommunitingMembers.getCommunityByTitle, bind, readOne, createOne, ret, throw.
    rewrite Hfree. cbn [docs issued unhandled].
    fold created. unfold w' in Hfind. cbn [docs] in Hfind. now rewrite Hfind.
  - now rewrite (CommunitingMembersWorld.getNumMembers_found _ _ _ Hfind).
  - unfold CommunitingMembers.assertAuthorIsUser, CommunitingMembers.getCommunityByID,
      bind, readOne, throw, ret.
    rewrite Hfind. cbn [body created CommunitingMembers.author].
    now rewrite String.eqb_refl.
Qed.

(** X19 for the first community. *)
Lemma create_hikers :
  let created := mkDoc (generated 0)
                       (CommunitingMembers.mkCommunityDoc alice "Hikers" "desc" [alice]) in
  (CommunitingMembers.title_taken "Hikers" (empty _) = false /\
   ~ In (generated 0) (community_ids (empty _))) /\
  CommunitingMembers.create alice "Hikers" "desc" (empty _)
    = (inr ("Community Succesfully Created!", Some created), mkWorld [created] 1 []) /\
  fst (CommunitingMembers.getNumMembers (generated 0) (mkWorld [created] 1 []))
    = inr 1%nat /\
  fst (CommunitingMembers.assertAuthorIsUser (generated 0) alice (mkWorld [created] 1 []))
    = inr tt.
Proof.
  cbv zeta.
  assert (Hfresh : ~ In (generated 0)
                     (community_ids (empty CommunitingMembers.CommunityDoc)))
    by (intros []).
  split; [split; [reflexivity | exact Hfresh]|].
  exact (create_on_free_title alice "Hikers" "desc" (empty _) eq_refl Hfresh).
Defined.

(** X20. [create] of [unnamed/part_000] on a title that a stored
    community has rejects with the [NotAllowedError] "Community already
    exists!" for every author and description, and stores nothing. *)
Theorem create_on_taken_title
        (author : ObjectId) (title description : string)
        (w : World CommunitingMembers.CommunityDoc) :
  In title (titles w) ->
  CommunitingMembers.create author title description w
  = (inl (NotAllowedError "Community already exists!"), w).
Proof.
  intros Hin. apply CommunitingMembersFacts.create_rejects_taken_title.
  unfold titles in Hin. apply in_map_iff in Hin as (d & Hd & Hin). now exists d.
Qed.

(** X20 when bob creates a second "Hikers". *)
Lemma create_second_hikers :
  let w := CommunitingMembers.single (generated 0) alice "Hikers" "desc" [alice] 1 [] in
  In "Hikers" (titles w) /\
  CommunitingMembers.create bob "Hikers" "other" w
  = (inl (NotAllowedError "Community already exists!"), w).
Proof.
  cbv zeta.
  assert (Hin : In "Hikers"
                  (titles (CommunitingMembers.single (generated 0) alice "Hikers" "desc"
                             [alice] 1 [])))
    by (now left).
  split; [exact Hin|].
  exact (create_on_taken_title bob "Hikers" "other" _ Hin).
Defined.

(** ** Communiting as in [server/concepts/communiting.ts]: the swapped calls *)

(** X21. In [server/concepts/communiting.ts] the four updating actions
    hand their first argument to the assertion as the community
    identifier.  When that argument (the user of [join]/[leave], the item
    of [addItem]/[deleteItem]) is not the identifier of a stored
    community, each of them rejects with the [NotFoundError] naming that
    argument and writes nothing, whether or not the community [_id]
    exists. *)
Theorem swapped_assertions_reject
        (x cid : ObjectId) (v : World Communiting.CommunityDoc) :
  ~ In x (map _id (docs v)) ->
  Communiting.join x cid v = (inl (Communiting.doesnt_exist x), v) /\
  Communiting.leave x cid v = (inl (Communiting.doesnt_exist x), v) /\
  Communiting.addItem x cid v = (inl (Communiting.doesnt_exist x), v) /\
  Communiting.deleteItem x cid v = (inl (Communiting.doesnt_exist x), v) /\
  Communiting.doesnt_exist x
    = NotFoundError ("Community " ++ toString x ++ " doesn't exist!").
Proof.
  intros Hout. apply find_id_absent_iff in Hout.
  repeat split.
  - unfold Communiting.join, Communiting.assertUserNotInCommunity,
      Communiting.getCommunityByID, bind, readOne, throw.
    now rewrite Hout.
  - unfold Communiting.leave, Communiting.assertUserInCommunity,
      Communiting.getCommunityByID, bind, readOne, throw.
    now rewrite Hout.
  - unfold Communiting.addItem, Communiting.assertItemNotInCommunity,
      Communiting.getCommunityByID, bind, readOne, throw.
    now rewrite Hout.
  - unfold Communiting.deleteItem, Communiting.assertItemInCommunity,
      Communiting.getCommunityByID, bind, readOne, throw.
    now rewrite Hout.
Qed.

(** X21 on alice's community: bob and item X are not communities. *)
Lemma swapped_assertions_reject_bob :
  let v := mkWorld
             [mkDoc (generated 0)
                (Communiting.mkCommunityDoc alice "Hikers" "desc" [] [alice])] 1 [] in
  ~ In bob (map _id (docs v)) /\
  Communiting.join bob (generated 0) v
    = (inl (NotFoundError "Community b0b000000000000000000002 doesn't exist!"), v) /\
  Communiting.leave bob (generated 0) v
    = (inl (NotFoundError "Community b0b000000000000000000002 doesn't exist!"), v) /\
  Communiting.addItem bob (generated 0) v
    = (inl (NotFoundError "Community b0b000000000000000000002 doesn't exist!"), v) /\
  Communiting.deleteItem bob (generated 0) v
    = (inl (NotFoundError "Community b0b000000000000000000002 doesn't exist!"), v).
Proof.
  cbv zeta.
  assert (Hout : ~ In bob
                   (map _id
                      (docs (mkWorld
                               [mkDoc (generated 0)
                                  (Communiting.mkCommunityDoc alice "Hikers" "desc" []
                                     [alice])] 1 []))))
    by (intros [H|[]]; vm_compute in H; discriminate).
  split; [exact Hout|].
  destruct (swapped_assertions_reject bob (generated 0) _ Hout)
    as (Hj & Hl & Ha & Hd & _).
  split; [exact Hj | split; [exact Hl | split; [exact Ha | exact Hd]]].
Defined.

(** ** The arrays of identifiers *)

(** X22. The three array idioms of the concept agree on what an
    identifier is: [checkObjectIdInArray], which compares with [equals],
    finds exactly the elements of the array; it finds an identifier after
    [push]; and it finds it no more after the filter of [leave] and
    [deleteItem], which compares the [toString()] forms and removes
    nothing else. *)
Theorem array_idioms_agree (x y : ObjectId) (arr : list ObjectId) :
  (checkObjectIdInArray x arr = true <-> In x arr) /\
  checkObjectIdInArray x (push arr x) = true /\
  checkObjectIdInArray x (without x arr) = false /\
  (In y (without x arr) <-> In y arr /\ y <> x).
Proof.
  split; [apply checkObjectIdInArray_In|]. split; [|split].
  - apply checkObjectIdInArray_In. unfold push. apply in_or_app. right. now left.
  - destruct (checkObjectIdInArray x (without x arr)) eqn:E; [|reflexivity].
    apply checkObjectIdInArray_In, In_without in E. tauto.
  - apply In_without.
Qed.

(** ** The resolvers of [server/responses.ts] *)

(** X23. The four other resolvers that look a user up: for a
    [CommunityUserNoMatchError], a [CommunityMemberExistsError], a
    [FavoriteItemNoMatchError] and a [FavoriteItemExistsError], when the
    lookup of the user's raw id gives a user, the answer is the error's
    template with the user's name at position 0 and the raw second id at
    position 1. *)
Theorem username_resolvers
        (getUserById : ObjectId -> error + Responses.UserDoc)
        (who other : ObjectId) (user : Responses.UserDoc) :
  getUserById who = inr user ->
  Responses.enrich getUserById (CommunityUserNoMatchError who other)
    = inr (Responses.username user ++ " is not a member of community "
           ++ toString other) /\
  Responses.enrich getUserById (CommunityMemberExistsError who other)
    = inr (Responses.username user ++ " is already a member of community "
           ++ toString other) /\
  Responses.enrich getUserById (FavoriteItemNoMatchError who other)
    = inr (Responses.username user ++ " hasnot favorited item " ++ toString other) /\
  Responses.enrich getUserById (FavoriteItemExistsError who other)
    = inr (Responses.username user ++ " has already favorited item "
           ++ toString other).
Proof.
  intros Hfound.
  unfold Responses.enrich, Responses.registered, Responses.with_username.
  rewrite Hfound.
  unfold Errors.formatWith, Errors.substitute. simpl.
  rewrite append_empty. repeat split.
Qed.

(** X23 for bob. *)
Lemma username_resolvers_name_bob :
  users bob = inr (Responses.mkUserDoc "bob") /\
  Responses.enrich users (CommunityUserNoMatchError bob hikersFeed)
    = inr "bob is not a member of community feed00000000000000000004" /\
  Responses.enrich users (CommunityMemberExistsError bob hikersFeed)
    = inr "bob is already a member of community feed00000000000000000004" /\
  Responses.enrich users (FavoriteItemNoMatchError bob itemX)
    = inr "bob hasnot favorited item 1e3000000000000000000003" /\
  Responses.enrich users (FavoriteItemExistsError bob itemX)
    = inr "bob has already favorited item 1e3000000000000000000003".
Proof.
  split; [reflexivity|].
  destruct (username_resolvers users bob hikersFeed (Responses.mkUserDoc "bob") eq_refl)
    as (H1 & H2 & _ & _).
  destruct (username_resolvers users bob itemX (Responses.mkUserDoc "bob") eq_refl)
    as (_ & _ & H3 & H4).
  repeat split; assumption.
Defined.

(** X24. When the lookup of the user fails, each of the five resolvers
    that look a user up ends with the lookup's error: the answer is no
    longer about the error that was caught. *)
Theorem resolvers_pass_the_lookup_error
        (getUserById : ObjectId -> error + Responses.UserDoc)
        (who other : ObjectId) (e : error) :
  getUserById who = inl e ->
  Responses.enrich getUserById (CommunityAuthorNoMatchError who other) = inl e /\
  Responses.enrich getUserById (CommunityUserNoMatchError who other) = inl e /\
  Responses.enrich getUserById (CommunityMemberExistsError who other) = inl e /\
  Responses.enrich getUserById (FavoriteItemNoMatchError who other) = inl e /\
  Responses.enrich getUserById (FavoriteItemExistsError who other) = inl e.
Proof.
  intros Hlost.
  unfold Responses.enrich, Responses.registered, Responses.with_username.
  rewrite Hlost. repeat split.
Qed.

(** X24 for an identifier that is no user's. *)
Lemma resolvers_pass_user_not_found :
  users itemX = inl (NotFoundError "User not found!") /\
  Responses.enrich users (CommunityAuthorNoMatchError itemX hikersFeed)
    = inl (NotFoundError "User not found!") /\
  Responses.enrich users (FavoriteItemExistsError itemX hikersFeed)
    = inl (NotFoundError "User not found!").
Proof.
  split; [reflexivity|].
  destruct (resolvers_pass_the_lookup_error users itemX hikersFeed
              (NotFoundError "User not found!") eq_refl) as (H1 & _ & _ & _ & H5).
  split; [exact H1 | exact H5].
Defined.

(** X25. The resolvers of the two feed errors look nobody up: whatever
    the user lookup does, the answer is the error's own message, the
    template with the two raw ids.  In particular the rejection of
    [Feeding.deleteItem(item, feed)], which carries its two arguments in
    the opposite order, reads "<feed> is not an item of feed <item>". *)
Theorem feed_errors_keep_their_message
        (getUserById : ObjectId -> error + Responses.UserDoc)
        (item feed : ObjectId) (w : World Feeding.FeedDoc) :
  Responses.enrich getUserById (FeedItemExistsError item feed)
    = inr (Errors.message (FeedItemExistsError item feed)) /\
  Responses.enrich getUserById (FeedItemExistsError item feed)
    = inr (toString item ++ " is already an item of feed " ++ toString feed) /\
  Responses.enrich getUserById (FeedItemNoMatchError item feed)
    = inr (Errors.message (FeedItemNoMatchError item feed)) /\
  Responses.enrich getUserById (FeedItemNoMatchError item feed)
    = inr (toString item ++ " is not an item of feed " ++ toString feed) /\
  match fst (Feeding.deleteItem item feed w) with
  | inl e => Responses.enrich getUserById e
             = inr (toString feed ++ " is not an item of feed " ++ toString item)
  | inr _ => False
  end.
Proof.
  rewrite FeedingFacts.deleteItem_always_rejects. cbn [fst].
  unfold Responses.enrich, Responses.registered, Errors.message, Errors.formatWith,
    Errors.substitute.
  simpl. rewrite !append_empty. repeat split.
Qed.

(** ** The routes of the items of a community *)

Lemma assertCommunityExists_found (cid : ObjectId)
      (w : World CommunitingMembers.CommunityDoc) :
  In cid (community_ids w) ->
  CommunitingMembers.assertCommunityExists cid w = (inr tt, w).
Proof.
  intros Hin.
  unfold CommunitingMembers.assertCommunityExists, CommunitingMembers.getCommunityByID,
    bind, readOne, throw, ret.
  destruct (find _ (docs w)) as [c|] eqn:Hfind; [reflexivity|].
  apply find_id_absent_iff in Hfind. contradiction.
Qed.

Lemma assertCommunityExists_absent (cid : ObjectId)
      (w : World CommunitingMembers.CommunityDoc) :
  ~ In cid (community_ids w) ->
  CommunitingMembers.assertCommunityExists cid w
  = (inl (NotFoundError "Community doesn't exist!"), w).
Proof.
  intros Hout. apply find_id_absent_iff in Hout.
  unfold CommunitingMembers.assertCommunityExists, CommunitingMembers.getCommunityByID,
    bind, readOne, throw, ret.
  now rewrite Hout.
Qed.

(** X26. [POST /communities/:id/items/] when both identifiers are
    constructed.  For an identifier that no stored community has it ends
    with the [NotFoundError] "Community doesn't exist!" and writes
    nothing.  For a stored community it answers with the success message
    and stores the (feed, item) document after the others in the feed
    collection, whether or not the pair is stored already; the
    communities are not written. *)
Theorem addCommunityItem_checks_the_community_only
        (newObjectId : string -> option ObjectId)
        (id itemID : string) (cid item : ObjectId) (known unknown : Routes.App) :
  newObjectId id = Some cid ->
  newObjectId itemID = Some item ->
  In cid (community_ids (Routes.communities known)) ->
  ~ In cid (community_ids (Routes.communities unknown)) ->
  Routes.addCommunityItem newObjectId id itemID unknown
    = (inl (Routes.Rejected (NotFoundError "Community doesn't exist!")), unknown) /\
  Routes.addCommunityItem newObjectId id itemID known
    = (inr "An item has been added to a feed!",
       Routes.mkApp
         (Routes.communities known)
         (mkWorld (docs (Routes.feeds known)
                   ++ [mkDoc (generated (issued (Routes.feeds known)))
                             (Feeding.mkFeedDoc cid item)])
                  (issued (Routes.feeds known) + 1)
                  (unhandled (Routes.feeds known)))).
Proof.
  intros Hid Hitem Hin Hout.
  unfold Routes.addCommunityItem, Routes.next, Routes.construct,
    Routes.onCommunities, Routes.onFeeds.
  rewrite Hid, Hitem.
  rewrite (assertCommunityExists_absent _ _ Hout), (assertCommunityExists_found _ _ Hin).
  rewrite FeedingFacts.addItem_always_stores.
  split; [now destruct unknown | reflexivity].
Qed.

(** X27. [DELETE /communities/:id/items/:itemID] never answers with
    success and never writes: in every state of the two collections and
    for every pair of strings it ends with something thrown, and the
    state is as before. *)
Theorem deleteCommunityItem_deletes_nothing
        (newObjectId : string -> option ObjectId)
        (id itemID : string) (app : Routes.App) :
  exists t, Routes.deleteCommunityItem newObjectId id itemID app = (inl t, app).
Proof.
  unfold Routes.deleteCommunityItem, Routes.next, Routes.construct,
    Routes.onCommunities, Routes.onFeeds.
  destruct (newObjectId id) as [cid|]; [|now eexists].
  destruct (newObjectId itemID) as [item|]; [|now eexists].
  destruct (in_dec ObjectId_eq_dec cid (community_ids (Routes.communities app)))
    as [Hin|Hout].
  - rewrite (assertCommunityExists_found _ _ Hin).
    rewrite FeedingFacts.deleteItem_always_rejects.
    destruct app. now eexists.
  - rewrite (assertCommunityExists_absent _ _ Hout).
    destruct app. now eexists.
Qed.

(** X28. [GET /communities/:id/items] after [POST /communities/:id/items/]
    on a stored community: the answer holds the documents the feed of
    that community had, each as often as before, and the new document.
    Nothing is said of the order of an answer. *)
Theorem getCommunityItems_after_addCommunityItem
        (newObjectId : string -> option ObjectId)
        (id itemID : string) (cid item : ObjectId) (app : Routes.App) :
  newObjectId id = Some cid ->
  newObjectId itemID = Some item ->
  In cid (community_ids (Routes.communities app)) ->
  exists before after,
    fst (Routes.getCommunityItems newObjectId id app) = inr before /\
    (forall d, In d before <->
               In d (docs (Routes.feeds app)) /\ Feeding.feed (body d) = cid) /\
    fst (Routes.getCommunityItems newObjectId id
           (snd (Routes.addCommunityItem newObjectId id itemID app)))
    = inr after /\
    Permutation after
      (mkDoc (generated (issued (Routes.feeds app))) (Feeding.mkFeedDoc cid item)
       :: before).
Proof.
  intros Hid Hitem Hin.
  unfold Routes.getCommunityItems, Routes.addCommunityItem, Routes.next,
    Routes.construct, Routes.onCommunities, Routes.onFeeds.
  rewrite Hid, Hitem, (assertCommunityExists_found _ _ Hin).
  rewrite FeedingFacts.addItem_always_stores. cbn [snd Routes.communities Routes.feeds].
  rewrite (assertCommunityExists_found _ _ Hin).
  rewrite !getItems_reads. cbn [fst Routes.feeds docs].
  rewrite filter_app. cbn [List.filter body Feeding.feed].
  rewrite equals_refl.
  do 2 eexists. split; [reflexivity|]. split; [|split; [reflexivity|]].
  - intros d. rewrite filter_In. now rewrite equals_eq.
  - apply Permutation_sym, Permutation_cons_append.
Qed.

(** X26 on alice's community and on no community, adding item X twice
    over. *)
Lemma addCommunityItem_on_hikers :
  let parse := fun s : string => Some (OID s) in
  let known :=
    Routes.mkApp
      (CommunitingMembers.single (generated 0) alice "Hikers" "desc" [alice] 1 [])
      (mkWorld [mkDoc (generated 0) (Feeding.mkFeedDoc (generated 0) itemX)] 1 []) in
  let unknown := Routes.mkApp (empty _) (empty _) in
  (In (generated 0) (community_ids (Routes.communities known)) /\
   ~ In (generated 0) (community_ids (Routes.communities unknown))) /\
  Routes.addCommunityItem parse "000000000000000000000000" "1e3000000000000000000003"
    unknown
    = (inl (Routes.Rejected (NotFoundError "Community doesn't exist!")), unknown) /\
  Routes.addCommunityItem parse "000000000000000000000000" "1e3000000000000000000003"
    known
    = (inr "An item has been added to a feed!",
       Routes.mkApp
         (Routes.communities known)
         (mkWorld [mkDoc (generated 0) (Feeding.mkFeedDoc (generated 0) itemX);
                   mkDoc (generated 1) (Feeding.mkFeedDoc (generated 0) itemX)]
                  2 [])).
Proof.
  cbv zeta.
  assert (Hin : In (generated 0)
                  (community_ids
                     (CommunitingMembers.single (generated 0) alice "Hikers" "desc"
                        [alice] 1 []))) by (now left).
  assert (Hout : ~ In (generated 0)
                     (community_ids (empty CommunitingMembers.CommunityDoc)))
    by (intros []).
  split; [split; [exact Hin | exact Hout]|].
  exact (addCommunityItem_checks_the_community_only
           (fun s : string => Some (OID s))
           "000000000000000000000000" "1e3000000000000000000003"
           (generated 0) itemX
           (Routes.mkApp
              (CommunitingMembers.single (generated 0) alice "Hikers" "desc" [alice] 1 [])
              (mkWorld [mkDoc (generated 0) (Feeding.mkFeedDoc (generated 0) itemX)] 1 []))
           (Routes.mkApp (empty _) (empty _))
           eq_refl eq_refl Hin Hout).
Defined.

(** X28 on alice's community with an empty feed. *)
Lemma getCommunityItems_of_hikers :
  let parse := fun s : string => Some (OID s) in
  let app :=
    Routes.mkApp
      (CommunitingMembers.single (generated 0) alice "Hikers" "desc" [alice] 1 [])
      (empty _) in
  In (generated 0) (community_ids (Routes.communities app)) /\
  exists before after,
    fst (Routes.getCommunityItems parse "000000000000000000000000" app) = inr before /\
    (forall d, In d before <->
               In d (docs (Routes.feeds app)) /\ Feeding.feed (body d) = generated 0) /\
    fst (Routes.getCommunityItems parse "000000000000000000000000"
           (snd (Routes.addCommunityItem parse "000000000000000000000000"
                   "1e3000000000000000000003" app)))
    = inr after /\
    Permutation after
      (mkDoc (generated 0) (Feeding.mkFeedDoc (generated 0) itemX) :: before).
Proof.
  cbv zeta.
  assert (Hin : In (generated 0)
                  (community_ids
                     (CommunitingMembers.single (generated 0) alice "Hikers" "desc"
                        [alice] 1 []))) by (now left).
  split; [exact Hin|].
  exact (getCommunityItems_after_addCommunityItem
           (fun s : string => Some (OID s))
           "000000000000000000000000" "1e3000000000000000000003"
           (generated 0) itemX
           (Routes.mkApp
              (CommunitingMembers.single (generated 0) alice "Hikers" "desc" [alice] 1 [])
              (empty _))
           eq_refl eq_refl Hin).
Defined.

(** X29. The identifiers are constructed before any concept is called:
    when the constructor throws on [id], the three routes end with that
    exception and write nothing; when it throws on [itemID], so do the
    two routes that take one, also for an [id] that no community has. *)
Theorem routes_construct_first
        (newObjectId : string -> option ObjectId)
        (bad id itemID : string) (cid : ObjectId) (app : Routes.App) :
  newObjectId bad = None ->
  newObjectId id = Some cid ->
  Routes.getCommunityItems newObjectId bad app = (inl Routes.ConstructorThrew, app) /\
  Routes.addCommunityItem newObjectId bad itemID app
    = (inl Routes.ConstructorThrew, app) /\
  Routes.deleteCommunityItem newObjectId bad itemID app
    = (inl Routes.ConstructorThrew, app) /\
  Routes.addCommunityItem newObjectId id bad app = (inl Routes.ConstructorThrew, app) /\
  Routes.deleteCommunityItem newObjectId id bad app
    = (inl Routes.ConstructorThrew, app).
Proof.
  intros Hbad Hid.
  unfold Routes.getCommunityItems, Routes.addCommunityItem, Routes.deleteCommunityItem,
    Routes.next, Routes.construct.
  rewrite Hbad, Hid. repeat split.
Qed.

(** X29 with a constructor that takes 24 characters only. *)
Lemma routes_construct_first_on_short_id :
  let parse := fun s : string =>
                 if Nat.eqb (String.length s) 24 then Some (OID s) else None in
  let app := Routes.mkApp (empty _) (empty _) in
  (parse "hikers" = None /\
   parse "000000000000000000000000" = Some (generated 0)) /\
  Routes.getCommunityItems parse "hikers" app = (inl Routes.ConstructorThrew, app) /\
  Routes.addCommunityItem parse "hikers" "1e3000000000000000000003" app
    = (inl Routes.ConstructorThrew, app) /\
  Routes.deleteCommunityItem parse "hikers" "1e3000000000000000000003" app
    = (inl Routes.ConstructorThrew, app) /\
  Routes.addCommunityItem parse "000000000000000000000000" "hikers" app
    = (inl Routes.ConstructorThrew, app) /\
  Routes.deleteCommunityItem parse "000000000000000000000000" "hikers" app
    = (inl Routes.ConstructorThrew, app).
Proof.
  cbv zeta. split; [split; reflexivity|].
  exact (routes_construct_first
           (fun s : string =>
              if Nat.eqb (String.length s) 24 then Some (OID s) else None)
           "hikers" "000000000000000000000000" "1e3000000000000000000003"
           (generated 0) (Routes.mkApp (empty _) (empty _)) eq_refl eq_refl).
Defined.
